(** * ProgressStore: a shallow embedding of [Python/database.py]

    The module is a thin layer over one sqlite3 connection.  The model keeps
    what the code relies on:

    - the four tables of [create_tables], each a list of rows in rowid
      (insertion) order, with the AUTOINCREMENT counters of the three tables
      that have one;
    - the constraints the schema declares and [PRAGMA foreign_keys = ON]
      enforces: NOT NULL, the composite primary key of [user_progress], the
      foreign keys of [grades] and [user_progress];
    - the connection: whether it is open, the database as the connection
      sees it, the last committed database, and what was printed;
    - Python's control flow around every statement: [try] / [except
      sqlite3.Error] / [finally: cursor.close()].

    Numbers.  Python [int] and SQLite INTEGER are [Z].  An integer argument
    of a call has to fit the signed 64-bit range to be bound to a statement:
    [run] raises [OverflowError] otherwise, and the functions themselves
    ([add_grade], [remove_user], ...) are the functions on arguments that
    are bound.  The integers the database makes itself (rowids, attempt
    counts) are not bounded.  A REAL column and a Python [float] are exact
    rationals [Q] in the database and in [calculate_progress]; the same
    function over binary64 is [calculate_progress_binary64], for what
    rounding does to the average.  Division by zero raises
    [ZeroDivisionError] as in Python.

    Time.  [datetime.now] is an input: every operation that reads the clock
    takes the formatted timestamp as an argument.

    Not modelled: [drop_all_tables] and [debug_script] (debug functions),
    I/O failures of the storage itself. *)

From Stdlib Require Import List ZArith QArith Qfield Bool String Ascii Lia.
From Stdlib Require Import Permutation Sorted OrderedTypeEx.
From Stdlib Require Import PrimFloat SpecFloat FloatOps.
Import ListNotations.

Local Open Scope Z_scope.

(** ** Rows and tables *)

(** [users (id, name, created_at)] *)
Record user_row := mk_user
  { u_id : Z; u_name : string; u_created_at : string }.

(** [exercises (id, name, description)] *)
Record exercise_row := mk_exercise
  { e_id : Z; e_name : string; e_description : string }.

(** [grades (id, user_id, exercise_id, grade, time_attempt)] *)
Record grade_row := mk_grade
  { g_id : Z; g_user_id : Z; g_exercise_id : Z; g_grade : Q;
    g_time_attempt : string }.

(** [user_progress (user_id, exercise_id, average_grade, attempt_count,
    last_attempt)], primary key [(user_id, exercise_id)] *)
Record progress_row := mk_progress
  { p_user_id : Z; p_exercise_id : Z; p_average_grade : Q;
    p_attempt_count : Z; p_last_attempt : string }.

(** The database file.  [tables] tells whether [create_tables] has run;
    the [_seq] fields are the rows of [sqlite_sequence]. *)
Record db := mk_db
  { tables : bool;
    users : list user_row;          users_seq : Z;
    exercises : list exercise_row;  exercises_seq : Z;
    grades : list grade_row;        grades_seq : Z;
    user_progress : list progress_row }.

Definition set_users (l : list user_row) (d : db) : db :=
  mk_db (tables d) l (users_seq d) (exercises d) (exercises_seq d)
        (grades d) (grades_seq d) (user_progress d).

Definition set_users_seq (n : Z) (d : db) : db :=
  mk_db (tables d) (users d) n (exercises d) (exercises_seq d)
        (grades d) (grades_seq d) (user_progress d).

Definition set_exercises (l : list exercise_row) (d : db) : db :=
  mk_db (tables d) (users d) (users_seq d) l (exercises_seq d)
        (grades d) (grades_seq d) (user_progress d).

Definition set_exercises_seq (n : Z) (d : db) : db :=
  mk_db (tables d) (users d) (users_seq d) (exercises d) n
        (grades d) (grades_seq d) (user_progress d).

Definition set_grades (l : list grade_row) (d : db) : db :=
  mk_db (tables d) (users d) (users_seq d) (exercises d) (exercises_seq d)
        l (grades_seq d) (user_progress d).

Definition set_grades_seq (n : Z) (d : db) : db :=
  mk_db (tables d) (users d) (users_seq d) (exercises d) (exercises_seq d)
        (grades d) n (user_progress d).

Definition set_user_progress (l : list progress_row) (d : db) : db :=
  mk_db (tables d) (users d) (users_seq d) (exercises d) (exercises_seq d)
        (grades d) (grades_seq d) l.

(** A database file that does not exist yet: [sqlite3.connect] creates it
    empty, without tables. *)
Definition empty_db : db := mk_db false [] 0 [] 0 [] 0 [].

(** ** Exceptions *)

(** The subclasses of [sqlite3.Error] the statements of this module raise,
    with the message [str(err)] prints. *)
Inductive sqlite3_Error :=
| IntegrityError (msg : string)
| OperationalError (msg : string)
| ProgrammingError (msg : string).

Definition str (err : sqlite3_Error) : string :=
  match err with
  | IntegrityError m | OperationalError m | ProgrammingError m => m
  end.

Inductive exception :=
| Sqlite (err : sqlite3_Error)
| ZeroDivisionError
| UnboundLocalError
| OverflowError.

Inductive result (A : Type) :=
| Return (a : A)
| Raise (e : exception).
Arguments Return {A} a.
Arguments Raise {A} e.

(** ** The connection and the monad of operations *)

Record world := mk_world
  { is_open : bool;          (* the connection has not been closed *)
    store : db;              (* the database as this connection sees it *)
    committed : db;          (* the database as of the last commit *)
    stdout : list string }.  (* lines printed so far *)

Definition set_store (d : db) (w : world) : world :=
  mk_world (is_open w) d (committed w) (stdout w).

(** State passes through an exception: what a statement changed before a
    later one raised stays changed. *)
Definition M (A : Type) : Type := world -> result A * world.

Definition ret {A} (a : A) : M A := fun w => (Return a, w).

Definition bind {A B} (m : M A) (k : A -> M B) : M B :=
  fun w =>
    match m w with
    | (Return a, w') => k a w'
    | (Raise e, w') => (Raise e, w')
    end.

Notation "x <- m ;; k" := (bind m (fun x => k))
  (at level 61, m at next level, right associativity).
Notation "m ;; k" := (bind m (fun _ => k))
  (at level 61, right associativity).

(** [print(line)] *)
Definition print (line : string) : M unit :=
  fun w => (Return tt,
            mk_world (is_open w) (store w) (committed w) (stdout w ++ [line])).

(** [connection.commit()] *)
Definition commit : M unit :=
  fun w => (Return tt, mk_world (is_open w) (store w) (store w) (stdout w)).

(** [connection.cursor()]: refused on a closed connection. *)
Definition connection_cursor : M unit :=
  fun w =>
    if is_open w then (Return tt, w)
    else (Raise (Sqlite (ProgrammingError
                           "Cannot operate on a closed database.")), w).

(** A statement either changes the database or raises; an immediate
    constraint failure backs the statement out and keeps the transaction. *)
Definition statement : Type := db -> sqlite3_Error + db.

(** A query reads the database or raises. *)
Definition query (A : Type) : Type := db -> sqlite3_Error + A.

(** [cursor.execute(<statement>)] *)
Definition execute (s : statement) : M unit :=
  fun w =>
    match s (store w) with
    | inl err => (Raise (Sqlite err), w)
    | inr d => (Return tt, set_store d w)
    end.

(** [cursor.execute(<query>)] followed by a fetch *)
Definition fetch {A} (q : query A) : M A :=
  fun w =>
    match q (store w) with
    | inl err => (Raise (Sqlite err), w)
    | inr a => (Return a, w)
    end.

(** The shape every operation of the module has:
<<
    try:
        cursor = connection.cursor()
        <body>
    except sqlite3.Error as err:
        <handler err>
    finally:
        cursor.close()
>>
    When [connection.cursor()] itself raises, the handler runs and then the
    [finally] clause reads the local [cursor], which was never bound: the
    [UnboundLocalError] it raises replaces whatever the handler returned.
    Any other exception of the body passes through (the cursor is closed on
    the way). *)
Definition with_cursor {A} (body : M A) (handler : sqlite3_Error -> M A)
  : M A :=
  fun w =>
    match connection_cursor w with
    | (Raise (Sqlite err), w1) =>
        let '(_, w2) := handler err w1 in (Raise UnboundLocalError, w2)
    | (Raise e, w1) => (Raise e, w1)
    | (Return _, w1) =>
        match body w1 with
        | (Raise (Sqlite err), w2) => handler err w2
        | other => other
        end
    end.

(** ** SQL statements of the module *)

Local Open Scope string_scope.

(** The tables [create_tables] creates. *)
Inductive table := Users | Exercises | Grades | UserProgress.

(** Name resolution when a statement is prepared. *)
Definition resolve (d : db) (name : string) : option table :=
  if negb (tables d) then None
  else if name =? "users" then Some Users
  else if name =? "exercises" then Some Exercises
  else if name =? "grades" then Some Grades
  else if name =? "user_progress" then Some UserProgress
  else None.

Definition no_such_table (name : string) : sqlite3_Error :=
  OperationalError ("no such table: " ++ name).

Definition foreign_key_failed : sqlite3_Error :=
  IntegrityError "FOREIGN KEY constraint failed".

Definition not_null_failed (column : string) : sqlite3_Error :=
  IntegrityError ("NOT NULL constraint failed: " ++ column).

(** AUTOINCREMENT: one more than the largest rowid the table ever had. *)
Definition next_rowid (seq : Z) (ids : list Z) : Z :=
  Z.max seq (fold_right Z.max 0 ids) + 1.

Definition has_user (d : db) (id : Z) : bool :=
  existsb (fun u => u_id u =? id)%Z (users d).

Definition has_exercise (d : db) (id : Z) : bool :=
  existsb (fun e => e_id e =? id)%Z (exercises d).

Definition is_progress_of (user_id exercise_id : Z) (p : progress_row) : bool :=
  ((p_user_id p =? user_id) && (p_exercise_id p =? exercise_id))%Z.

(** [INSERT INTO users (name, created_at) VALUES (?, ?)];
    [None] is Python's [None], which [name TEXT NOT NULL] refuses. *)
Definition insert_user (name : option string) (date : string) : statement :=
  fun d =>
    match resolve d "users", name with
    | None, _ => inl (no_such_table "users")
    | Some _, None => inl (not_null_failed "users.name")
    | Some _, Some n =>
        let id := next_rowid (users_seq d) (map u_id (users d)) in
        inr (set_users_seq id (set_users (users d ++ [mk_user id n date]) d))
    end.

(** [INSERT INTO exercises (name, description) VALUES (?, ?)] *)
Definition insert_exercise (name description : option string) : statement :=
  fun d =>
    match resolve d "exercises", name, description with
    | None, _, _ => inl (no_such_table "exercises")
    | Some _, None, _ => inl (not_null_failed "exercises.name")
    | Some _, Some _, None => inl (not_null_failed "exercises.description")
    | Some _, Some n, Some ds =>
        let id := next_rowid (exercises_seq d) (map e_id (exercises d)) in
        inr (set_exercises_seq id
               (set_exercises (exercises d ++ [mk_exercise id n ds]) d))
    end.

(** [INSERT INTO grades (user_id, exercise_id, grade, time_attempt)
    VALUES (?, ?, ?, ?)]; both foreign keys are checked. *)
Definition insert_grade (user_id exercise_id : Z) (grade : Q) (date : string)
  : statement :=
  fun d =>
    match resolve d "grades" with
    | None => inl (no_such_table "grades")
    | Some _ =>
        if has_user d user_id && has_exercise d exercise_id then
          let id := next_rowid (grades_seq d) (map g_id (grades d)) in
          inr (set_grades_seq id
                 (set_grades
                    (grades d ++ [mk_grade id user_id exercise_id grade date])
                    d))
        else inl foreign_key_failed
    end.

(** [INSERT INTO user_progress (user_id, exercise_id, average_grade,
    attempt_count, last_attempt) VALUES (?, ?, ?, ?, ?)]: the primary key
    is checked when the row is written, the foreign keys when the statement
    ends. *)
Definition insert_progress (user_id exercise_id : Z) (average : Q)
  (attempts : Z) (date : string) : statement :=
  fun d =>
    match resolve d "user_progress" with
    | None => inl (no_such_table "user_progress")
    | Some _ =>
        if existsb (is_progress_of user_id exercise_id) (user_progress d) then
          inl (IntegrityError
                 "UNIQUE constraint failed: user_progress.user_id, user_progress.exercise_id")
        else if has_user d user_id && has_exercise d exercise_id then
          inr (set_user_progress
                 (user_progress d
                    ++ [mk_progress user_id exercise_id average attempts date])
                 d)
        else inl foreign_key_failed
    end.

(** [UPDATE user_progress SET average_grade = ?, attempt_count = ?,
    last_attempt = ? WHERE user_id = ? AND exercise_id = ?] *)
Definition update_progress (average : Q) (attempts : Z) (date : string)
  (user_id exercise_id : Z) : statement :=
  fun d =>
    match resolve d "user_progress" with
    | None => inl (no_such_table "user_progress")
    | Some _ =>
        inr (set_user_progress
               (map (fun p =>
                       if is_progress_of user_id exercise_id p
                       then mk_progress (p_user_id p) (p_exercise_id p)
                                        average attempts date
                       else p)
                    (user_progress d))
               d)
    end.

(** [UPDATE <table> SET name = ? WHERE id = ?], for the table the
    statement names. *)
Definition update_name (table_name : string) (name : option string) (id : Z)
  : statement :=
  fun d =>
    match resolve d table_name with
    | None => inl (no_such_table table_name)
    | Some Users =>
        match name with
        | None =>
            if has_user d id then inl (not_null_failed "users.name")
            else inr d
        | Some n =>
            inr (set_users
                   (map (fun u => if (u_id u =? id)%Z
                                  then mk_user (u_id u) n (u_created_at u)
                                  else u)
                        (users d))
                   d)
        end
    | Some Exercises =>
        match name with
        | None =>
            if has_exercise d id then inl (not_null_failed "exercises.name")
            else inr d
        | Some n =>
            inr (set_exercises
                   (map (fun e => if (e_id e =? id)%Z
                                  then mk_exercise (e_id e) n (e_description e)
                                  else e)
                        (exercises d))
                   d)
        end
    | Some _ => inl (OperationalError "no such column: name")
    end.

(** [UPDATE <table> SET description = ? WHERE id = ?] *)
Definition update_description (table_name : string)
  (description : option string) (id : Z) : statement :=
  fun d =>
    match resolve d table_name with
    | None => inl (no_such_table table_name)
    | Some Exercises =>
        match description with
        | None =>
            if has_exercise d id
            then inl (not_null_failed "exercises.description")
            else inr d
        | Some ds =>
            inr (set_exercises
                   (map (fun e => if (e_id e =? id)%Z
                                  then mk_exercise (e_id e) (e_name e) ds
                                  else e)
                        (exercises d))
                   d)
        end
    | Some _ => inl (OperationalError "no such column: description")
    end.

(** [UPDATE grades SET grade = ? WHERE id = ?] *)
Definition update_grade (grade : Q) (id : Z) : statement :=
  fun d =>
    match resolve d "grades" with
    | None => inl (no_such_table "grades")
    | Some _ =>
        inr (set_grades
               (map (fun g => if (g_id g =? id)%Z
                              then mk_grade (g_id g) (g_user_id g)
                                            (g_exercise_id g) grade
                                            (g_time_attempt g)
                              else g)
                    (grades d))
               d)
    end.

(** [DELETE FROM grades WHERE user_id = ?] *)
Definition delete_grades_of_user (user_id : Z) : statement :=
  fun d =>
    match resolve d "grades" with
    | None => inl (no_such_table "grades")
    | Some _ =>
        inr (set_grades
               (filter (fun g => negb (g_user_id g =? user_id)%Z) (grades d)) d)
    end.

(** [DELETE FROM grades WHERE exercise_id = ?] *)
Definition delete_grades_of_exercise (exercise_id : Z) : statement :=
  fun d =>
    match resolve d "grades" with
    | None => inl (no_such_table "grades")
    | Some _ =>
        inr (set_grades
               (filter (fun g => negb (g_exercise_id g =? exercise_id)%Z)
                       (grades d))
               d)
    end.

(** [DELETE FROM grades WHERE id = ?] *)
Definition delete_grade (id : Z) : statement :=
  fun d =>
    match resolve d "grades" with
    | None => inl (no_such_table "grades")
    | Some _ =>
        inr (set_grades (filter (fun g => negb (g_id g =? id)%Z) (grades d)) d)
    end.

(** [DELETE FROM user_progress WHERE user_id = ?] *)
Definition delete_progress_of_user (user_id : Z) : statement :=
  fun d =>
    match resolve d "user_progress" with
    | None => inl (no_such_table "user_progress")
    | Some _ =>
        inr (set_user_progress
               (filter (fun p => negb (p_user_id p =? user_id)%Z)
                       (user_progress d))
               d)
    end.

(** [DELETE FROM users WHERE id = ?]: refused while a row of [grades] or
    [user_progress] still references a deleted user (no ON DELETE action is
    declared). *)
Definition delete_user (id : Z) : statement :=
  fun d =>
    match resolve d "users" with
    | None => inl (no_such_table "users")
    | Some _ =>
        if has_user d id
           && (existsb (fun g => g_user_id g =? id)%Z (grades d)
               || existsb (fun p => p_user_id p =? id)%Z (user_progress d))
        then inl foreign_key_failed
        else inr (set_users (filter (fun u => negb (u_id u =? id)%Z) (users d))
                            d)
    end.

(** [DELETE FROM exercises WHERE id = ?] *)
Definition delete_exercise (id : Z) : statement :=
  fun d =>
    match resolve d "exercises" with
    | None => inl (no_such_table "exercises")
    | Some _ =>
        if has_exercise d id
           && (existsb (fun g => g_exercise_id g =? id)%Z (grades d)
               || existsb (fun p => p_exercise_id p =? id)%Z (user_progress d))
        then inl foreign_key_failed
        else inr (set_exercises
                    (filter (fun e => negb (e_id e =? id)%Z) (exercises d)) d)
    end.

(** The script of [create_tables]: four [CREATE TABLE IF NOT EXISTS]. *)
Definition create_script : statement :=
  fun d =>
    inr (mk_db true (users d) (users_seq d) (exercises d) (exercises_seq d)
               (grades d) (grades_seq d) (user_progress d)).

(** ** Queries *)

(** [SELECT * FROM users] *)
Definition select_users : query (list user_row) :=
  fun d =>
    match resolve d "users" with
    | None => inl (no_such_table "users")
    | Some _ => inr (users d)
    end.

(** [SELECT * FROM exercises] *)
Definition select_exercises : query (list exercise_row) :=
  fun d =>
    match resolve d "exercises" with
    | None => inl (no_such_table "exercises")
    | Some _ => inr (exercises d)
    end.

(** [grades JOIN exercises ON grades.exercise_id = exercises.id]: the
    grades are scanned in rowid order, each with its exercises. *)
Definition join_grades_exercises (d : db) : list (grade_row * exercise_row) :=
  flat_map
    (fun g => map (fun e => (g, e))
                  (filter (fun e => g_exercise_id g =? e_id e)%Z (exercises d)))
    (grades d).

(** [ORDER BY <key> DESC] over text, compared byte by byte.  The sorter
    keeps rows of equal key in the order they reach it. *)
Fixpoint insert_desc {A} (key : A -> string) (x : A) (l : list A) : list A :=
  match l with
  | [] => [x]
  | y :: l' =>
      if String.ltb (key x) (key y) then y :: insert_desc key x l'
      else x :: y :: l'
  end.

Definition order_by_desc {A} (key : A -> string) (l : list A) : list A :=
  fold_right (insert_desc key) [] l.

(** The query of [get_grades_of_user]:
<<
    SELECT exercises.name, grades.grade, grades.time_attempt
    FROM grades JOIN exercises ON grades.exercise_id = exercises.id
    WHERE grades.user_id = ?
    ORDER BY grades.time_attempt DESC
>> *)
Definition select_grades_of_user (user_id : Z)
  : query (list (string * Q * string)) :=
  fun d =>
    match resolve d "grades", resolve d "exercises" with
    | None, _ => inl (no_such_table "grades")
    | _, None => inl (no_such_table "exercises")
    | Some _, Some _ =>
        inr (map (fun ge => (e_name (snd ge), g_grade (fst ge),
                             g_time_attempt (fst ge)))
                 (order_by_desc (fun ge => g_time_attempt (fst ge))
                    (filter (fun ge => g_user_id (fst ge) =? user_id)%Z
                            (join_grades_exercises d))))
    end.

(** What [get_user_progress] hands back: a row of the query, [None] when
    [fetchone] finds no row, the empty tuple of the handler. *)
Inductive fetched_progress :=
| ProgressRow (user_id : Z) (average_grade : Q) (attempt_count : Z)
              (last_attempt : string)
| ProgressNone
| ProgressEmptyTuple.

(** [SELECT user_id, average_grade, attempt_count, last_attempt FROM
    user_progress WHERE user_id = ?] and [fetchone].  The statement has no
    ORDER BY: the order in which the rows are visited belongs to the engine
    (a scan of the table, a walk of the primary-key index), and is the
    parameter [plan]. *)
Definition select_user_progress
  (plan : list progress_row -> list progress_row) (user_id : Z)
  : query fetched_progress :=
  fun d =>
    match resolve d "user_progress" with
    | None => inl (no_such_table "user_progress")
    | Some _ =>
        inr (match filter (fun p => p_user_id p =? user_id)%Z
                          (plan (user_progress d)) with
             | [] => ProgressNone
             | p :: _ => ProgressRow (p_user_id p) (p_average_grade p)
                                     (p_attempt_count p) (p_last_attempt p)
             end)
    end.

(** [SELECT average_grade, attempt_count FROM user_progress WHERE
    user_id = ? AND exercise_id = ?] and [fetchone] *)
Definition select_progress (user_id exercise_id : Z) : query (option (Q * Z)) :=
  fun d =>
    match resolve d "user_progress" with
    | None => inl (no_such_table "user_progress")
    | Some _ =>
        inr (match find (is_progress_of user_id exercise_id)
                        (user_progress d) with
             | Some p => Some (p_average_grade p, p_attempt_count p)
             | None => None
             end)
    end.

(** ** The functions of the module *)

(** [create_connection]: opens the file, nothing pending, nothing printed. *)
Definition create_connection (file : db) : world :=
  mk_world true file file [].

(** [create_tables] has no [try]: what it raises reaches the caller.
    [executescript] commits what is pending before it runs the script. *)
Definition create_tables : M unit :=
  connection_cursor ;; commit ;; execute create_script ;; commit.

(** [progress or (0,0)]: a fetched row is a non-empty tuple, hence true. *)
Definition or_default (progress : option (Q * Z)) : Q * Z :=
  match progress with
  | Some p => p
  | None => (0%Q, 0%Z)
  end.

(** [calculate_progress(progress, new_grade)] *)
Definition calculate_progress (progress : option (Q * Z)) (new_grade : Q)
  : result (Q * Z) :=
  let '(old_average_grade, old_attempts) := or_default progress in
  let new_attempts := (old_attempts + 1)%Z in
  if (new_attempts =? 0)%Z then Raise ZeroDivisionError
  else
    let new_average :=
      ((old_average_grade * inject_Z old_attempts + new_grade)
       / inject_Z new_attempts)%Q in
    Return (new_average, new_attempts).

(** An [int] as the [float] Python converts it to where the two meet in
    an operation: the nearest binary64 value, ties to even, and
    [OverflowError] when the integer is beyond the largest one. *)
Definition float_of_int (n : Z) : result float :=
  let x := SF2Prim (binary_normalize prec emax n 0 false) in
  if is_infinity x then Raise OverflowError else Return x.

(** [calculate_progress(progress, new_grade)] as Python computes it: the
    average and the grade are binary64 values and every operation rounds.
    The attempt counts are integers, converted where they meet a float. *)
Definition calculate_progress_binary64
  (progress : option (float * Z)) (new_grade : float) : result (float * Z) :=
  let '(old_average_grade, old_attempts) :=
    match progress with
    | Some p => p
    | None => (0%float, 0%Z)
    end in
  let new_attempts := (old_attempts + 1)%Z in
  match float_of_int old_attempts with
  | Raise e => Raise e
  | Return attempts =>
      let total := (old_average_grade * attempts + new_grade)%float in
      match float_of_int new_attempts with
      | Raise e => Raise e
      | Return divisor =>
          if (new_attempts =? 0)%Z then Raise ZeroDivisionError
          else Return ((total / divisor)%float, new_attempts)
      end
  end.

Definition lift {A} (r : result A) : M A := fun w => (r, w).

(** [update_user_progression(connection, user_id, exercise_id, new_grade)] *)
Definition update_user_progression (user_id exercise_id : Z) (new_grade : Q)
  (date : string) : M unit :=
  with_cursor
    (current_progress <- fetch (select_progress user_id exercise_id) ;;
     new <- lift (calculate_progress current_progress new_grade) ;;
     let '(new_average, new_attempts) := new in
     match current_progress with
     | Some _ =>
         execute (update_progress new_average new_attempts date
                                  user_id exercise_id)
     | None =>
         execute (insert_progress user_id exercise_id new_average
                                  new_attempts date)
     end ;;
     commit)
    (fun err => print ("Error updating user progress: " ++ str err)).

(** [add_user(connection, name)] *)
Definition add_user (name : option string) (date : string) : M unit :=
  with_cursor
    (execute (insert_user name date) ;; commit)
    (fun err => print ("Database Error: " ++ str err)).

(** [add_exercise(connection, name, description)] *)
Definition add_exercise (name description : option string) : M unit :=
  with_cursor
    (execute (insert_exercise name description) ;; commit)
    (fun err => print ("Database Error: " ++ str err)).

(** [add_grade(connection, user_id, exercise_id, grade)]; [date] is the
    clock read here, [progress_date] the one read by
    [update_user_progression]. *)
Definition add_grade (user_id exercise_id : Z) (grade : Q)
  (date progress_date : string) : M unit :=
  with_cursor
    (execute (insert_grade user_id exercise_id grade date) ;;
     commit ;;
     update_user_progression user_id exercise_id grade progress_date)
    (fun err => print ("Database Error: " ++ str err)).

(** [get_users(connection)] *)
Definition get_users : M (list user_row) :=
  with_cursor
    (fetch select_users)
    (fun err => print ("Error getting the users: " ++ str err) ;; ret []).

(** [get_exercises(connection)] *)
Definition get_exercises : M (list exercise_row) :=
  with_cursor
    (fetch select_exercises)
    (fun err => print ("Error getting the exercises: " ++ str err) ;; ret []).

(** [get_grades_of_user(connection, user_id)] *)
Definition get_grades_of_user (user_id : Z) : M (list (string * Q * string)) :=
  with_cursor
    (fetch (select_grades_of_user user_id))
    (fun err =>
       print ("Error getting the grades of the user: " ++ str err) ;; ret []).

(** [get_user_progress(connection, user_id)] *)
Definition get_user_progress (plan : list progress_row -> list progress_row)
  (user_id : Z) : M fetched_progress :=
  with_cursor
    (fetch (select_user_progress plan user_id))
    (fun err =>
       print ("Error getting the user progress: " ++ str err) ;;
       ret ProgressEmptyTuple).

(** [remove_user(connection, user_id)] *)
Definition remove_user (user_id : Z) : M unit :=
  with_cursor
    (execute (delete_grades_of_user user_id) ;;
     execute (delete_user user_id) ;;
     commit)
    (fun err => print ("Error removing user: " ++ str err)).

(** [remove_exercise(connection, exercise_id)] *)
Definition remove_exercise (exercise_id : Z) : M unit :=
  with_cursor
    (execute (delete_grades_of_exercise exercise_id) ;;
     execute (delete_exercise exercise_id) ;;
     commit)
    (fun err => print ("Error removing exercise: " ++ str err)).

(** [remove_grade(connection, grade_id)] *)
Definition remove_grade (grade_id : Z) : M unit :=
  with_cursor
    (execute (delete_grade grade_id) ;; commit)
    (fun err => print ("Error removing grade: " ++ str err)).

(** [remove_user_progress(connection, user_id)] *)
Definition remove_user_progress (user_id : Z) : M unit :=
  with_cursor
    (execute (delete_progress_of_user user_id) ;; commit)
    (fun err => print ("Error removing user progress: " ++ str err)).

(** [update_user(connection, name, user_id)] *)
Definition update_user (name : option string) (user_id : Z) : M unit :=
  with_cursor
    (execute (update_name "users" name user_id) ;; commit)
    (fun err => print ("Error updating user: " ++ str err)).

(** Truth value of an optional string: [None] and [""] are false. *)
Definition truthy (s : option string) : bool :=
  match s with
  | Some (String _ _) => true
  | _ => false
  end.

(** [update_exercise(connection, exercise_id, name = None,
    description = None)]; both statements name the table [exercise]. *)
Definition update_exercise (exercise_id : Z) (name description : option string)
  : M unit :=
  with_cursor
    ((if truthy name
      then execute (update_name "exercise" name exercise_id)
      else ret tt) ;;
     (if truthy description
      then execute (update_description "exercise" description exercise_id)
      else ret tt) ;;
     commit)
    (fun err => print ("Error updating exercise: " ++ str err)).

(** [update_grades(connection, grade_id, grade)] *)
Definition update_grades (grade_id : Z) (grade : Q) : M unit :=
  with_cursor
    (execute (update_grade grade grade_id) ;; commit)
    (fun err => print ("Error updating grade: " ++ str err)).

(** ** The interface as a whole *)

(** One call of a function of the module, with its arguments (and the
    clock readings it makes). *)
Inductive call :=
| CreateTables
| AddUser (name : option string) (date : string)
| AddExercise (name description : option string)
| AddGrade (user_id exercise_id : Z) (grade : Q) (date progress_date : string)
| GetUsers
| GetExercises
| GetGradesOfUser (user_id : Z)
| GetUserProgress (user_id : Z)
| RemoveUser (user_id : Z)
| RemoveExercise (exercise_id : Z)
| RemoveGrade (grade_id : Z)
| RemoveUserProgress (user_id : Z)
| UpdateUser (name : option string) (user_id : Z)
| UpdateExercise (exercise_id : Z) (name description : option string)
| UpdateGrades (grade_id : Z) (grade : Q)
| UpdateUserProgression (user_id exercise_id : Z) (new_grade : Q)
                        (date : string).

(** What a call returns. *)
Inductive value :=
| PyNone
| UserRows (rows : list user_row)
| ExerciseRows (rows : list exercise_row)
| GradeRows (rows : list (string * Q * string))
| Progress (p : fetched_progress).

Definition fmap {A B} (f : A -> B) (m : M A) : M B :=
  a <- m ;; ret (f a).

Definition none (m : M unit) : M value := fmap (fun _ => PyNone) m.

(** The function a call names, on its arguments. *)
Definition perform (plan : list progress_row -> list progress_row) (c : call)
  : M value :=
  match c with
  | CreateTables => none create_tables
  | AddUser name date => none (add_user name date)
  | AddExercise name description => none (add_exercise name description)
  | AddGrade u e g date date' => none (add_grade u e g date date')
  | GetUsers => fmap UserRows get_users
  | GetExercises => fmap ExerciseRows get_exercises
  | GetGradesOfUser u => fmap GradeRows (get_grades_of_user u)
  | GetUserProgress u => fmap Progress (get_user_progress plan u)
  | RemoveUser u => none (remove_user u)
  | RemoveExercise e => none (remove_exercise e)
  | RemoveGrade g => none (remove_grade g)
  | RemoveUserProgress u => none (remove_user_progress u)
  | UpdateUser name u => none (update_user name u)
  | UpdateExercise e name description =>
      none (update_exercise e name description)
  | UpdateGrades g grade => none (update_grades g grade)
  | UpdateUserProgression u e g date =>
      none (update_user_progression u e g date)
  end.

(** The integers sqlite3 can bind to a statement: signed, 64 bits. *)
Definition int64 (z : Z) : bool := ((- 2 ^ 63 <=? z) && (z <? 2 ^ 63))%Z.

(** The integer arguments a call hands to the first statement it
    executes.  [update_exercise] never comes to bind its id: its
    statements fail when they are prepared. *)
Definition bound_integers (c : call) : list Z :=
  match c with
  | AddGrade u e _ _ _ | UpdateUserProgression u e _ _ => [u; e]
  | GetGradesOfUser u | GetUserProgress u | RemoveUser u
  | RemoveUserProgress u | UpdateUser _ u => [u]
  | RemoveExercise e => [e]
  | RemoveGrade g | UpdateGrades g _ => [g]
  | CreateTables | AddUser _ _ | AddExercise _ _ | GetUsers | GetExercises
  | UpdateExercise _ _ _ => []
  end.

Definition binds (c : call) : bool := forallb int64 (bound_integers c).

(** One call as a program makes it.  [cursor.execute] prepares the
    statement and then binds the arguments; an integer outside the signed
    64-bit range makes the binding raise [OverflowError], which is not a
    [sqlite3.Error]: no handler of the module catches it, the cursor is
    closed and the exception reaches the caller, before the statement has
    run.  A closed connection or a missing table fails first, as in
    [perform]. *)
Definition run (plan : list progress_row -> list progress_row) (c : call)
  : M value :=
  fun w =>
    if is_open w && tables (store w) && negb (binds c)
    then (Raise OverflowError, w)
    else perform plan c w.


(** A sequence of calls, stopped by the first exception that escapes. *)
Fixpoint run_all (plan : list progress_row -> list progress_row)
  (cs : list call) : M unit :=
  match cs with
  | [] => ret tt
  | c :: cs' => run plan c ;; run_all plan cs'
  end.

(** The states programs can bring a connection to: a new database file is
    opened; a function of the module is called; the program ends and the
    file, as last committed, is opened again. *)
Inductive reachable (plan : list progress_row -> list progress_row)
  : world -> Prop :=
| reachable_connect :
    reachable plan (create_connection empty_db)
| reachable_call c w :
    reachable plan w -> reachable plan (snd (run plan c w))
| reachable_reopen w :
    reachable plan w -> reachable plan (create_connection (committed w)).

(** The script at the end of the module: after the user and the exercise
    are added. *)
Definition enrolled : world :=
  snd (run_all (fun l => l)
         [ CreateTables;
           AddUser (Some "John") "2024-01-01 10:00:00";
           AddExercise (Some "Test") (Some "Testing insertion") ]
         (create_connection empty_db)).

(** A user with progress on two exercises, the later exercise first. *)
Definition two_exercises : world :=
  snd (run_all (fun l => l)
         [ AddExercise (Some "Scales") (Some "Sing a scale");
           AddGrade 1 2 80 "2024-01-01 10:00:01" "2024-01-01 10:00:01";
           AddGrade 1 1 59 "2024-01-01 10:00:02" "2024-01-01 10:00:02" ]
         enrolled).

(** The script, up to the first printing. *)
Definition demo : world :=
  snd (run_all (fun l => l)
         [ CreateTables;
           AddUser (Some "John") "2024-01-01 10:00:00";
           AddExercise (Some "Test") (Some "Testing insertion");
           AddGrade 1 1 59 "2024-01-01 10:00:01" "2024-01-01 10:00:01";
           AddGrade 1 1 54 "2024-01-01 10:00:02" "2024-01-01 10:00:02";
           AddGrade 1 1 87 "2024-01-01 10:00:03" "2024-01-01 10:00:03";
           AddGrade 1 1 45 "2024-01-01 10:00:03" "2024-01-01 10:00:04" ]
         (create_connection empty_db)).


(** ** Notions the statements below use *)

(** The connection is open and [create_tables] has run. *)
Definition ready (w : world) : Prop :=
  is_open w = true /\ tables (store w) = true.

(** The primary key of a row of [user_progress]. *)
Definition progress_key (p : progress_row) : Z * Z :=
  (p_user_id p, p_exercise_id p).

(** The pair whose row a call may insert into [user_progress]. *)
Definition inserted_key (c : call) : option (Z * Z) :=
  match c with
  | AddGrade u e _ _ _ | UpdateUserProgression u e _ _ => Some (u, e)
  | _ => None
  end.




(** [calculate_progress] applied to one grade after the other, each result
    being the progress the next application is given: what the successive
    [update_user_progression]s of a pair compute. *)
Fixpoint fold_progress (progress : option (Q * Z)) (grades : list Q)
  : result (option (Q * Z)) :=
  match grades with
  | [] => Return progress
  | g :: rest =>
      match calculate_progress progress g with
      | Return r => fold_progress (Some r) rest
      | Raise e => Raise e
      end
  end.


(** The binary64 values that the literals [0.1] and [0.7] denote in
    Python. *)
Definition one_tenth : float := 0x1.999999999999ap-4%float.

Definition seven_tenths : float := 0x1.6666666666666p-1%float.


Definition sum_Q (l : list Q) : Q := fold_right Qplus 0%Q l.

(** The arithmetic mean of a list of grades. *)
Definition mean (l : list Q) : Q :=
  (sum_Q l / inject_Z (Z.of_nat (List.length l)))%Q.

(** Rows of [user_progress] that agree on every column. *)
Definition progress_row_eqb (p r : progress_row) : bool :=
  ((p_user_id p =? p_user_id r)%Z
   && (p_exercise_id p =? p_exercise_id r)%Z
   && (Qnum (p_average_grade p) =? Qnum (p_average_grade r))%Z
   && (Qden (p_average_grade p) =? Qden (p_average_grade r))%positive
   && (p_attempt_count p =? p_attempt_count r)%Z
   && (p_last_attempt p =? p_last_attempt r)%string)%bool.

(** A visiting order that reaches the row [p] before the others. *)
Definition prefer (p : progress_row) (l : list progress_row)
  : list progress_row :=
  filter (progress_row_eqb p) l
  ++ filter (fun r => negb (progress_row_eqb p r)) l.

(** The tuple [get_user_progress] makes of a row. *)
Definition fetched_of (p : progress_row) : fetched_progress :=
  ProgressRow (p_user_id p) (p_average_grade p) (p_attempt_count p)
              (p_last_attempt p).

(** The tuple [get_grades_of_user] makes of a joined row. *)
Definition grade_tuple (ge : grade_row * exercise_row) : string * Q * string :=
  (e_name (snd ge), g_grade (fst ge), g_time_attempt (fst ge)).

(** The grades of a user with their exercises, in insertion order: the
    rows [get_grades_of_user] has to return, before they are ordered. *)
Definition grades_with_exercise (user_id : Z) (d : db)
  : list (grade_row * exercise_row) :=
  filter (fun ge => g_user_id (fst ge) =? user_id)%Z (join_grades_exercises d).



(** What holds of [user_progress] in every database the module produces:
    one row per (user, exercise) pair at most, and at least one attempt
    counted in each row. *)
Definition progress_ok (d : db) : Prop :=
  NoDup (map progress_key (user_progress d))
  /\ Forall (fun p => 1 <= p_attempt_count p) (user_progress d).

(** The row [update_user_progression] writes over a row of the pair. *)
Definition overwrite (user_id exercise_id : Z) (average : Q) (attempts : Z)
  (date : string) (p : progress_row) : progress_row :=
  if is_progress_of user_id exercise_id p
  then mk_progress (p_user_id p) (p_exercise_id p) average attempts date
  else p.

(** [user_progress] after a grade was folded in: the row of the pair is
    overwritten where it stands, or a first row is appended. *)
Definition progress_after (user_id exercise_id : Z) (new_grade : Q)
  (date : string) (l : list progress_row) : list progress_row :=
  match find (is_progress_of user_id exercise_id) l with
  | Some p =>
      map (overwrite user_id exercise_id
             ((p_average_grade p * inject_Z (p_attempt_count p) + new_grade)
              / inject_Z (p_attempt_count p + 1))%Q
             (p_attempt_count p + 1)%Z date)
          l
  | None => l ++ [mk_progress user_id exercise_id new_grade 1 date]
  end.

(** ** Notions of the further properties *)

(** The ids of a table with an AUTOINCREMENT key: increasing in rowid
    order (hence distinct), positive, and none above the counter kept in
    [sqlite_sequence]. *)
Definition ids_ok (ids : list Z) (seq : Z) : Prop :=
  StronglySorted Z.lt ids /\ Forall (fun i => 1 <= i <= seq) ids.

Definition keys_ok (d : db) : Prop :=
  ids_ok (map u_id (users d)) (users_seq d)
  /\ ids_ok (map e_id (exercises d)) (exercises_seq d)
  /\ ids_ok (map g_id (grades d)) (grades_seq d).

(** No dangling reference: the user and the exercise of every grade row
    and of every progress row exist. *)
Definition references_ok (d : db) : Prop :=
  Forall (fun g => has_user d (g_user_id g) = true
                   /\ has_exercise d (g_exercise_id g) = true) (grades d)
  /\ Forall (fun p => has_user d (p_user_id p) = true
                      /\ has_exercise d (p_exercise_id p) = true)
            (user_progress d).

Definition consistent (d : db) : Prop := keys_ok d /\ references_ok d.

(** A property of databases holds of what the connection sees and of what
    is committed. *)
Definition world_inv (Inv : db -> Prop) (w : world) : Prop :=
  Inv (store w) /\ Inv (committed w).

(** A statement that succeeds keeps the property. *)
Definition statement_keeps (Inv : db -> Prop) (s : statement) : Prop :=
  forall d d', s d = inr d' -> Inv d -> Inv d'.

(** A computation keeps the property, however it ends. *)
Definition keeps {A} (Inv : db -> Prop) (m : M A) : Prop :=
  forall w, world_inv Inv w -> world_inv Inv (snd (m w)).

(** Calls that write to the database; the others only read. *)
Definition writes (c : call) : bool :=
  match c with
  | GetUsers | GetExercises | GetGradesOfUser _ | GetUserProgress _ => false
  | _ => true
  end.

(** The row a call addresses by id is not there (and, for the removal of a
    user or an exercise, nothing refers to that id). *)
Definition target_missing (c : call) (d : db) : bool :=
  match c with
  | RemoveGrade g | UpdateGrades g _ =>
      negb (existsb (fun r => g_id r =? g)%Z (grades d))
  | UpdateUser _ u => negb (has_user d u)
  | RemoveUserProgress u =>
      negb (existsb (fun p => p_user_id p =? u)%Z (user_progress d))
  | RemoveUser u =>
      negb (has_user d u)
      && negb (existsb (fun r => g_user_id r =? u)%Z (grades d))
  | RemoveExercise e =>
      negb (has_exercise d e)
      && negb (existsb (fun r => g_exercise_id r =? e)%Z (grades d))
  | _ => false
  end.

(** [update_user]'s effect on one row. *)
Definition rename (name : string) (id : Z) (u : user_row) : user_row :=
  if (u_id u =? id)%Z then mk_user (u_id u) name (u_created_at u) else u.


(** ** Tactics *)

(** Unfolding of the monad, of the functions, of the statements; case
    analysis on the innermost [match] first. *)
Ltac unfold_monad :=
  unfold none, fmap, with_cursor, connection_cursor, bind, ret, lift,
    execute, fetch, commit, print, set_store in *.

Ltac unfold_calls :=
  unfold create_tables, add_user, add_exercise, add_grade, get_users,
    get_exercises, get_grades_of_user, get_user_progress, remove_user,
    remove_exercise, remove_grade, remove_user_progress, update_user,
    update_exercise, update_grades, update_user_progression in *.

Ltac break_match :=
  match goal with
  | |- context [match ?x with _ => _ end] =>
      lazymatch x with
      | context [match _ with _ => _ end] => fail
      | _ => destruct x eqn:?
      end
  end.

Ltac crush_call :=
  unfold perform; unfold_calls; unfold_monad;
  unfold insert_user, insert_exercise, insert_grade, insert_progress,
    update_progress, update_name, update_description, update_grade,
    delete_grades_of_user, delete_grades_of_exercise, delete_grade,
    delete_progress_of_user, delete_user, delete_exercise, create_script,
    select_users, select_exercises, select_grades_of_user,
    select_user_progress, select_progress in *;
  simpl.

(** * Properties *)

(** ** Calls and the functions they name *)

Lemma run_perform
  (plan : list progress_row -> list progress_row) (c : call) (w : world) :
  run plan c w = perform plan c w
  \/ (run plan c w = (Raise OverflowError, w)
      /\ binds c = false /\ is_open w = true /\ tables (store w) = true).
Proof.
  unfold run.
  destruct (is_open w), (tables (store w)), (binds c); simpl; auto.
Qed.

Lemma run_bound
  (plan : list progress_row -> list progress_row) (c : call) (w : world) :
  binds c = true -> run plan c w = perform plan c w.
Proof.
  intros H. unfold run. now rewrite H, andb_false_r.
Qed.

Lemma run_closed
  (plan : list progress_row -> list progress_row) (c : call) (w : world) :
  is_open w = false -> run plan c w = perform plan c w.
Proof.
  intros H. unfold run. now rewrite H.
Qed.

Lemma snd_none (m : M unit) (w : world) : snd (none m w) = snd (m w).
Proof.
  unfold none, fmap, bind, ret. destruct (m w) as [[a | e] w']; reflexivity.
Qed.

Lemma fst_none (m : M unit) (w : world) :
  fst (m w) = Return tt -> fst (none m w) = Return PyNone.
Proof.
  unfold none, fmap, bind, ret.
  destruct (m w) as [[[] | e] w']; simpl; [reflexivity | discriminate].
Qed.


Lemma run_none
  (plan : list progress_row -> list progress_row) (c : call) (m : M unit)
  (w w' : world) :
  binds c = true ->
  perform plan c = none m ->
  m w = (Return tt, w') ->
  run plan c w = (Return PyNone, w').
Proof.
  intros Hb Hc Hm. rewrite (run_bound plan c w Hb), Hc.
  unfold none, fmap, bind, ret. now rewrite Hm.
Qed.

Lemma run_fmap {A}
  (plan : list progress_row -> list progress_row) (c : call)
  (f : A -> value) (m : M A) (a : A) (w w' : world) :
  binds c = true ->
  perform plan c = fmap f m ->
  m w = (Return a, w') ->
  run plan c w = (Return (f a), w').
Proof.
  intros Hb Hc Hm. rewrite (run_bound plan c w Hb), Hc.
  unfold fmap, bind, ret. now rewrite Hm.
Qed.


Lemma binds_one (c : call) (x : Z) :
  bound_integers c = [x] -> int64 x = true -> binds c = true.
Proof.
  intros Hc Hx. unfold binds. rewrite Hc. simpl. now rewrite Hx.
Qed.

Lemma binds_two (c : call) (x y : Z) :
  bound_integers c = [x; y] ->
  int64 x = true -> int64 y = true -> binds c = true.
Proof.
  intros Hc Hx Hy. unfold binds. rewrite Hc. simpl. now rewrite Hx, Hy.
Qed.

(** ** [calculate_progress] *)

Lemma calculate_progress_eq (progress : option (Q * Z)) (new_grade : Q) :
  (snd (or_default progress) + 1 <> 0)%Z ->
  calculate_progress progress new_grade =
  Return (((fst (or_default progress) * inject_Z (snd (or_default progress))
            + new_grade)
           / inject_Z (snd (or_default progress) + 1))%Q,
          (snd (or_default progress) + 1)%Z).
Proof.
  intros H. unfold calculate_progress.
  destruct (or_default progress) as [a n]; simpl in *.
  apply Z.eqb_neq in H. now rewrite H.
Qed.

Lemma first_average (g : Q) : ((0 * inject_Z 0 + g) / inject_Z 1)%Q = g.
Proof.
  destruct g as [n d]. unfold Qdiv, Qmult, Qplus, Qinv; simpl.
  now rewrite ?Z.mul_1_r, ?Pos.mul_1_r.
Qed.

Lemma calculate_progress_none (g : Q) :
  calculate_progress None g = Return (g, 1%Z).
Proof.
  unfold calculate_progress; simpl. now rewrite first_average.
Qed.

Lemma calculate_progress_some (a : Q) (n : Z) (g : Q) (r : Q * Z) :
  calculate_progress (Some (a, n)) g = Return r ->
  r = (((a * inject_Z n + g) / inject_Z (n + 1))%Q, (n + 1)%Z).
Proof.
  unfold calculate_progress; simpl.
  destruct (n + 1 =? 0)%Z; [discriminate | congruence].
Qed.

(** C8.  Without prior progress a new grade of 70 gives [(70, 1)]; in
    general an absent progress is read as [(0, 0)], and the first average
    is the new grade itself. *)
Theorem calculate_progress_first_attempt :
  calculate_progress None 70 = Return (70%Q, 1%Z)
  /\ or_default None = (0%Q, 0%Z)
  /\ (forall g, calculate_progress None g = calculate_progress (Some (0%Q, 0%Z)) g)
  /\ (forall g, calculate_progress None g = Return (g, 1%Z)).
Proof.
  repeat split. exact calculate_progress_none.
Qed.

(** C10.  With no prior progress or a prior attempt count that is not
    negative, the divisor is the old count plus one, it is at least 1, and
    the division is carried out: no [ZeroDivisionError]. *)
Theorem calculate_progress_divisor_positive
  (progress : option (Q * Z)) (new_grade : Q) :
  (match progress with Some (_, n) => 0 <= n | None => True end)%Z ->
  let old_average_grade := fst (or_default progress) in
  let old_attempts := snd (or_default progress) in
  let new_attempts := (old_attempts + 1)%Z in
  (1 <= new_attempts)%Z
  /\ calculate_progress progress new_grade =
     Return (((old_average_grade * inject_Z old_attempts + new_grade)
              / inject_Z new_attempts)%Q, new_attempts).
Proof.
  intros H; cbv zeta.
  assert (Hn : (0 <= snd (or_default progress))%Z).
  { destruct progress as [[a n]|]; simpl; [exact H | lia]. }
  split; [lia |].
  apply calculate_progress_eq. lia.
Qed.

Lemma calculate_progress_divisor_positive_witness :
  (1 <= 3 + 1)%Z
  /\ calculate_progress (Some (60%Q, 3%Z)) 80 =
     Return (((60 * inject_Z 3 + 80) / inject_Z (3 + 1))%Q, (3 + 1)%Z).
Proof.
  apply (calculate_progress_divisor_positive (Some (60%Q, 3%Z)) 80).
  simpl. lia.
Defined.

(** The guard of C10 is needed: a stored count of -1 makes the division
    fail. *)
Example calculate_progress_zero_divisor :
  calculate_progress (Some (50%Q, (-1)%Z)) 70 = Raise ZeroDivisionError.
Proof. reflexivity. Qed.

(** ** Name resolution *)

Lemma resolve_users d : tables d = true -> resolve d "users" = Some Users.
Proof. unfold resolve; now intros ->. Qed.

Lemma resolve_exercises d :
  tables d = true -> resolve d "exercises" = Some Exercises.
Proof. unfold resolve; now intros ->. Qed.

Lemma resolve_grades d : tables d = true -> resolve d "grades" = Some Grades.
Proof. unfold resolve; now intros ->. Qed.

Lemma resolve_user_progress d :
  tables d = true -> resolve d "user_progress" = Some UserProgress.
Proof. unfold resolve; now intros ->. Qed.

(** No database has a table [exercise]. *)
Lemma resolve_exercise d : resolve d "exercise" = None.
Proof. unfold resolve; now destruct (tables d). Qed.

Lemma resolve_no_tables d name : tables d = false -> resolve d name = None.
Proof. unfold resolve; now intros ->. Qed.

(** ** [add_grade] with a dangling reference *)





(** ** [update_exercise] *)

(** Whatever it is given, [update_exercise] leaves the database as it
    was: each of its statements names a table that does not exist. *)
Lemma update_exercise_changes_nothing
  (w : world) (exercise_id : Z) (name description : option string) :
  store (snd (update_exercise exercise_id name description w)) = store w.
Proof.
  unfold_calls; unfold_monad.
  unfold update_name, update_description.
  destruct (is_open w), (truthy name), (truthy description);
    rewrite ?resolve_exercise; reflexivity.
Qed.

(** C3 (fails on the code).  On the database of the script, renaming
    exercise 1 leaves its name as it was and prints the error of the
    statement; so does a new description. *)
Theorem update_exercise_name_only_fails :
  let w := snd (update_exercise 1 (Some "Scales") None demo) in
  let w' := snd (update_exercise 1 None (Some "Sing a scale") demo) in
  exercises (store demo) = [mk_exercise 1 "Test" "Testing insertion"]
  /\ exercises (store w) = [mk_exercise 1 "Test" "Testing insertion"]
  /\ stdout w = ["Error updating exercise: no such table: exercise"]
  /\ exercises (store w') = [mk_exercise 1 "Test" "Testing insertion"]
  /\ stdout w' = ["Error updating exercise: no such table: exercise"].
Proof. repeat split. Qed.

(** ** Lists *)

Lemma find_filter {A} (f : A -> bool) (l : list A) :
  find f l = hd_error (filter f l).
Proof.
  induction l as [|x l IH]; simpl; [reflexivity |].
  now destruct (f x).
Qed.

Lemma existsb_filter_nil {A} (f : A -> bool) (l : list A) :
  existsb f l = false <-> filter f l = [].
Proof.
  induction l as [|x l IH]; simpl; [tauto |].
  destruct (f x); simpl; [split; discriminate | exact IH].
Qed.


Lemma is_progress_of_overwrite u e a n date p :
  is_progress_of u e (overwrite u e a n date p) = is_progress_of u e p.
Proof.
  unfold overwrite. destruct (is_progress_of u e p) eqn:E; [| exact E].
  exact E.
Qed.

Lemma is_progress_of_key u e p :
  is_progress_of u e p = true <-> progress_key p = (u, e).
Proof.
  unfold is_progress_of, progress_key.
  rewrite andb_true_iff, !Z.eqb_eq. split.
  - now intros [-> ->].
  - intros [= -> ->]; now split.
Qed.

(** ** One successful [add_grade] *)

Lemma update_user_progression_ok (w : world) (u e : Z) (g : Q) (date : string) :
  ready w ->
  (find (is_progress_of u e) (user_progress (store w)) = None ->
   has_user (store w) u = true /\ has_exercise (store w) e = true) ->
  (forall p, find (is_progress_of u e) (user_progress (store w)) = Some p ->
             p_attempt_count p + 1 <> 0) ->
  let d' := set_user_progress
              (progress_after u e g date (user_progress (store w))) (store w) in
  update_user_progression u e g date w =
  (Return tt, mk_world (is_open w) d' d' (stdout w)).
Proof.
  intros [Ho Ht] Hfk Hn.
  destruct w as [o d c out]; simpl in *; subst o.
  unfold_calls; unfold_monad; simpl.
  unfold select_progress, progress_after.
  rewrite (resolve_user_progress _ Ht).
  destruct (find (is_progress_of u e) (user_progress d)) as [p|] eqn:Hf.
  - rewrite calculate_progress_eq by (simpl; now apply Hn).
    simpl. unfold update_progress. rewrite (resolve_user_progress _ Ht).
    reflexivity.
  - rewrite calculate_progress_none.
    simpl. unfold insert_progress. rewrite (resolve_user_progress _ Ht).
    assert (Hx : existsb (is_progress_of u e) (user_progress d) = false).
    { apply existsb_filter_nil. rewrite find_filter in Hf.
      destruct (filter _ _); [reflexivity | discriminate]. }
    destruct (Hfk eq_refl) as [Hu He].
    rewrite Hx, Hu, He. reflexivity.
Qed.

Lemma add_grade_ok (w : world) (u e : Z) (g : Q) (date date' : string) :
  ready w ->
  has_user (store w) u = true ->
  has_exercise (store w) e = true ->
  (forall p, find (is_progress_of u e) (user_progress (store w)) = Some p ->
             p_attempt_count p + 1 <> 0) ->
  let id := next_rowid (grades_seq (store w)) (map g_id (grades (store w))) in
  let d' :=
    set_user_progress
      (progress_after u e g date' (user_progress (store w)))
      (set_grades_seq id
         (set_grades (grades (store w) ++ [mk_grade id u e g date])
                     (store w))) in
  add_grade u e g date date' w =
  (Return tt, mk_world (is_open w) d' d' (stdout w)).
Proof.
  intros [Ho Ht] Hu He Hn.
  destruct w as [o d c out]; simpl in *; subst o.
  unfold add_grade, with_cursor, connection_cursor, bind, execute, commit,
    insert_grade; simpl.
  rewrite (resolve_grades _ Ht), Hu, He; simpl.
  rewrite update_user_progression_ok; simpl;
    try assumption; try (split; [reflexivity | assumption]).
  - reflexivity.
  - intros _. now split.
Qed.

(** ** The running average *)



(** In exact arithmetic the one-step formula keeps the mean: from an
    average [s / n] the grades [g1..gN] lead to [(s + g1 + ... + gN) /
    (n + N)].  Over binary64 every step rounds, and the identity is
    lost. *)
Lemma fold_progress_exact (grades : list Q) :
  forall (a s : Q) (n : Z),
    0 < n ->
    (a == s / inject_Z n)%Q ->
    exists a',
      fold_progress (Some (a, n)) grades
      = Return (Some (a', n + Z.of_nat (List.length grades)))
      /\ (a' == (s + sum_Q grades)
                / inject_Z (n + Z.of_nat (List.length grades)))%Q.
Proof.
  induction grades as [|g rest IH]; intros a s n Hn Ha.
  - exists a. simpl. rewrite Z.add_0_r. split; [reflexivity |].
    rewrite Ha. apply Qdiv_comp; [ring | reflexivity].
  - cbn [fold_progress]. rewrite calculate_progress_eq by (simpl; lia).
    cbn [or_default fst snd].
    assert (Hq : ~ (inject_Z n == 0)%Q) by (unfold Qeq; simpl; lia).
    assert (Hs : ((a * inject_Z n + g) / inject_Z (n + 1)
                  == (s + g) / inject_Z (n + 1))%Q).
    { apply Qdiv_comp; [| reflexivity]. rewrite Ha. field. exact Hq. }
    destruct (IH _ (s + g)%Q (n + 1) ltac:(lia) Hs) as (a' & Hf & Ha').
    exists a'. cbn [List.length]. rewrite Nat2Z.inj_succ.
    replace (n + Z.succ (Z.of_nat (List.length rest)))
      with (n + 1 + Z.of_nat (List.length rest)) by lia.
    split; [exact Hf |].
    rewrite Ha'. apply Qdiv_comp; [| reflexivity].
    cbn [sum_Q fold_right]. fold (sum_Q rest). ring.
Qed.

(** From no progress, and in exact arithmetic, the result over [g1..gN]
    is their arithmetic mean over N attempts. *)
Lemma fold_progress_exact_mean (grades : list Q) :
  grades <> [] ->
  exists a,
    fold_progress None grades
    = Return (Some (a, Z.of_nat (List.length grades)))
    /\ (a == mean grades)%Q.
Proof.
  destruct grades as [|g rest]; [congruence | intros _].
  cbn [fold_progress]. rewrite calculate_progress_none.
  destruct (fold_progress_exact rest g g 1) as (a & Hf & Ha); [lia | |].
  { simpl. field. }
  exists a. cbn [List.length]. rewrite Nat2Z.inj_succ.
  replace (Z.succ (Z.of_nat (List.length rest)))
    with (1 + Z.of_nat (List.length rest)) by lia.
  split; [exact Hf |].
  rewrite Ha. unfold mean. cbn [List.length sum_Q fold_right].
  rewrite Nat2Z.inj_succ.
  replace (Z.succ (Z.of_nat (List.length rest)))
    with (1 + Z.of_nat (List.length rest)) by lia.
  apply Qeq_refl.
Qed.




(** The script of the module: grades 59, 54, 87 and 45 give the average
    61.25 over 4 attempts. *)
Example demo_progress :
  exists p, user_progress (store demo) = [p]
            /\ (p_average_grade p == 61.25)%Q /\ p_attempt_count p = 4.
Proof. vm_compute. eexists; repeat split. Qed.

(** ** [get_user_progress] *)

Lemma progress_row_eqb_eq (p r : progress_row) :
  progress_row_eqb p r = true <-> p = r.
Proof.
  unfold progress_row_eqb.
  rewrite !andb_true_iff, !Z.eqb_eq, Pos.eqb_eq, String.eqb_eq.
  destruct p as [pu pe [pn pd] pc pl], r as [ru re [rn rd] rc rl]; simpl.
  split.
  - intros [[[[[-> ->] ->] ->] ->] ->]. reflexivity.
  - intros [= -> -> -> -> -> ->]. repeat split.
Qed.

Lemma prefer_permutation (p : progress_row) (l : list progress_row) :
  Permutation (prefer p l) l.
Proof.
  unfold prefer. induction l as [|x l IH]; simpl; [constructor |].
  destruct (progress_row_eqb p x); simpl.
  - now constructor.
  - apply Permutation_sym, Permutation_cons_app, Permutation_sym, IH.
Qed.

Lemma filter_eqb_head (p : progress_row) (l : list progress_row) :
  In p l -> exists rest, filter (progress_row_eqb p) l = p :: rest.
Proof.
  induction l as [|x l IH]; intros Hin; [destruct Hin |].
  simpl. destruct (progress_row_eqb p x) eqn:E.
  - apply progress_row_eqb_eq in E; subst x. now eexists.
  - apply IH. destruct Hin as [-> | Hin]; [| exact Hin].
    assert (progress_row_eqb p p = true) by now apply progress_row_eqb_eq.
    congruence.
Qed.

Lemma get_user_progress_ready
  (plan : list progress_row -> list progress_row) (w : world) (u : Z) :
  ready w ->
  get_user_progress plan u w =
  (Return match filter (fun p => p_user_id p =? u)%Z
                       (plan (user_progress (store w))) with
          | [] => ProgressNone
          | p :: _ => fetched_of p
          end, w).
Proof.
  intros [Ho Ht]. destruct w as [o d c out]; simpl in *; subst o.
  unfold_calls; unfold_monad; simpl.
  unfold select_user_progress. rewrite (resolve_user_progress _ Ht).
  reflexivity.
Qed.

Lemma get_user_progress_some_row
  (plan : list progress_row -> list progress_row) (w : world) (user_id : Z) :
  ready w ->
  (forall l, Permutation (plan l) l) ->
  (exists r,
      get_user_progress plan user_id w = (Return r, w)
      /\ ((r = ProgressNone
           /\ forall p, In p (user_progress (store w)) ->
                        p_user_id p <> user_id)
          \/ exists p, In p (user_progress (store w))
                       /\ p_user_id p = user_id
                       /\ r = fetched_of p))
  /\ (forall p,
         In p (user_progress (store w)) ->
         p_user_id p = user_id ->
         (forall l, Permutation (prefer p l) l)
         /\ get_user_progress (prefer p) user_id w
            = (Return (fetched_of p), w)).
Proof.
  intros Hr Hplan. split.
  - rewrite (get_user_progress_ready plan w user_id Hr).
    eexists; split; [reflexivity |].
    destruct (filter _ (plan (user_progress (store w)))) as [|p rest] eqn:Hf.
    + left; split; [reflexivity |]. intros p Hin Hp.
      assert (Hin' : In p (filter (fun p => p_user_id p =? user_id)%Z
                                  (plan (user_progress (store w))))).
      { apply filter_In; split.
        - apply (Permutation_in _ (Permutation_sym (Hplan _))), Hin.
        - now apply Z.eqb_eq. }
      rewrite Hf in Hin'. destruct Hin'.
    + right; exists p.
      assert (Hin : In p (filter (fun p => p_user_id p =? user_id)%Z
                                 (plan (user_progress (store w)))))
        by (rewrite Hf; now left).
      apply filter_In in Hin; destruct Hin as [Hin Hp].
      repeat split.
      * apply (Permutation_in _ (Hplan _)), Hin.
      * now apply Z.eqb_eq.
  - intros p Hin Hp. split; [apply prefer_permutation |].
    rewrite (get_user_progress_ready (prefer p) w user_id Hr).
    unfold prefer.
    destruct (filter_eqb_head p _ Hin) as [rest ->].
    simpl. apply Z.eqb_eq in Hp. now rewrite Hp.
Qed.

(** C4.  [get_user_progress] looks at the user id only.  For a user id
    within the signed 64-bit range, and whatever order the engine visits
    the rows in, it returns [None] when the user has no progress row and
    otherwise the columns of one row of that user, on whichever exercise;
    and which row is not determined: each row of the user is the one
    returned under some visiting order. *)
Theorem get_user_progress_one_row_of_user
  (plan : list progress_row -> list progress_row) (w : world) (user_id : Z) :
  ready w ->
  int64 user_id = true ->
  (forall l, Permutation (plan l) l) ->
  (exists r,
      run plan (GetUserProgress user_id) w = (Return (Progress r), w)
      /\ ((r = ProgressNone
           /\ forall p, In p (user_progress (store w)) ->
                        p_user_id p <> user_id)
          \/ exists p, In p (user_progress (store w))
                       /\ p_user_id p = user_id
                       /\ r = fetched_of p))
  /\ (forall p,
         In p (user_progress (store w)) ->
         p_user_id p = user_id ->
         (forall l, Permutation (prefer p l) l)
         /\ run (prefer p) (GetUserProgress user_id) w
            = (Return (Progress (fetched_of p)), w)).
Proof.
  intros Hr Hu Hplan.
  destruct (get_user_progress_some_row plan w user_id Hr Hplan)
    as [(r & Hrun & Hrow) Hany].
  assert (Hb : binds (GetUserProgress user_id) = true)
    by now apply (binds_one _ user_id).
  split.
  - exists r. split; [| exact Hrow].
    now apply run_fmap with (m := get_user_progress plan user_id).
  - intros p Hin Hp. destruct (Hany p Hin Hp) as [Hperm Hrun'].
    split; [exact Hperm |].
    now apply run_fmap with (m := get_user_progress (prefer p) user_id).
Qed.

Lemma get_user_progress_one_row_of_user_witness :
  exists r,
    run (fun l => l) (GetUserProgress 1) two_exercises
    = (Return (Progress r), two_exercises)
    /\ ((r = ProgressNone
         /\ forall p, In p (user_progress (store two_exercises)) ->
                      p_user_id p <> 1)
        \/ exists p, In p (user_progress (store two_exercises))
                     /\ p_user_id p = 1
                     /\ r = fetched_of p).
Proof.
  apply (get_user_progress_one_row_of_user (fun l => l) two_exercises 1).
  - split; vm_compute; reflexivity.
  - reflexivity.
  - intros l. apply Permutation_refl.
Defined.

(** With progress on two exercises the row returned depends on the
    visiting order: the table in insertion order gives the row of
    exercise 2, another order the row of exercise 1. *)
Example get_user_progress_two_exercises :
  map progress_key (user_progress (store two_exercises)) = [(1, 2); (1, 1)]
  /\ fst (get_user_progress (fun l => l) 1 two_exercises)
     = Return (ProgressRow 1 80 1 "2024-01-01 10:00:01")
  /\ fst (get_user_progress (prefer (mk_progress 1 1 59 1 "2024-01-01 10:00:02"))
                            1 two_exercises)
     = Return (ProgressRow 1 59 1 "2024-01-01 10:00:02").
Proof. vm_compute. repeat split. Qed.

(** ** [remove_user] *)

Lemma existsb_filter_negb {A} (f : A -> bool) (l : list A) :
  existsb f (filter (fun x => negb (f x)) l) = false.
Proof.
  induction l as [|x l IH]; simpl; [reflexivity |].
  destruct (f x) eqn:E; simpl; [exact IH | now rewrite E].
Qed.





(** ** [ORDER BY time_attempt DESC] *)





Section OrderBy.
Context {A : Type} (key : A -> string).

Lemma insert_desc_permutation (x : A) (l : list A) :
  Permutation (insert_desc key x l) (x :: l).
Proof.
  induction l as [|y l IH]; simpl; [apply Permutation_refl |].
  destruct (key x <? key y).
  - apply perm_trans with (y :: x :: l); [now constructor | constructor].
  - apply Permutation_refl.
Qed.



Lemma order_by_desc_permutation (l : list A) :
  Permutation (order_by_desc key l) l.
Proof.
  induction l as [|x l IH]; simpl; [constructor |].
  apply perm_trans with (x :: order_by_desc key l).
  - apply insert_desc_permutation.
  - now constructor.
Qed.


End OrderBy.

(** The rows the join and the filter of [get_grades_of_user] keep. *)
Lemma grades_with_exercise_In (u : Z) (d : db) (g : grade_row) (e : exercise_row) :
  In (g, e) (grades_with_exercise u d)
  <-> In g (grades d) /\ In e (exercises d)
      /\ g_exercise_id g = e_id e /\ g_user_id g = u.
Proof.
  unfold grades_with_exercise, join_grades_exercises.
  rewrite filter_In, in_flat_map. simpl. rewrite Z.eqb_eq. split.
  - intros [(g' & Hg & Hin) Hu].
    apply in_map_iff in Hin. destruct Hin as (e' & [= -> ->] & He).
    apply filter_In in He. destruct He as [He Hid].
    apply Z.eqb_eq in Hid. tauto.
  - intros (Hg & He & Hid & Hu). split; [| exact Hu].
    exists g. split; [exact Hg |].
    apply in_map, filter_In. split; [exact He | now apply Z.eqb_eq].
Qed.





(** The script: 87 and 45 share a timestamp and come out in the order
    they were added. *)
Example get_grades_of_user_demo :
  fst (get_grades_of_user 1 demo)
  = Return [("Test", 87%Q, "2024-01-01 10:00:03");
            ("Test", 45%Q, "2024-01-01 10:00:03");
            ("Test", 54%Q, "2024-01-01 10:00:02");
            ("Test", 59%Q, "2024-01-01 10:00:01")].
Proof. vm_compute. reflexivity. Qed.

(** ** What a call does to [user_progress] *)

Lemma perform_user_progress
  (plan : list progress_row -> list progress_row) (c : call) (w : world) :
  let l := user_progress (store w) in
  let l' := user_progress (store (snd (perform plan c w))) in
  match c with
  | AddGrade u e g _ date | UpdateUserProgression u e g date =>
      l' = l \/ l' = progress_after u e g date l
  | RemoveUserProgress u =>
      l' = l \/ l' = filter (fun p => negb (p_user_id p =? u)%Z) l
  | _ => l' = l
  end.
Proof.
  destruct w as [o [t us useq es eseq gs gseq ps] cm out].
  destruct c; destruct o, t; crush_call;
    repeat (break_match; simpl; try discriminate);
    auto;
    right; unfold progress_after;
    match goal with H : find _ _ = _ |- _ => rewrite H end;
    [ match goal with
      | H : calculate_progress _ _ = Return _ |- _ =>
          apply calculate_progress_some in H; injection H as -> ->
      end
    | rewrite first_average
    | match goal with
      | H : calculate_progress _ _ = Return _ |- _ =>
          apply calculate_progress_some in H; injection H as -> ->
      end
    | rewrite first_average ];
    reflexivity.
Qed.

Lemma run_user_progress
  (plan : list progress_row -> list progress_row) (c : call) (w : world) :
  let l := user_progress (store w) in
  let l' := user_progress (store (snd (run plan c w))) in
  match c with
  | AddGrade u e g _ date | UpdateUserProgression u e g date =>
      l' = l \/ l' = progress_after u e g date l
  | RemoveUserProgress u =>
      l' = l \/ l' = filter (fun p => negb (p_user_id p =? u)%Z) l
  | _ => l' = l
  end.
Proof.
  destruct (run_perform plan c w) as [-> | [-> _]].
  - apply perform_user_progress.
  - destruct c; simpl; auto.
Qed.

Lemma progress_key_overwrite u e a n date p :
  progress_key (overwrite u e a n date p) = progress_key p.
Proof. unfold overwrite. now destruct (is_progress_of u e p). Qed.

Lemma find_existsb {A} (f : A -> bool) (l : list A) :
  existsb f l = match find f l with Some _ => true | None => false end.
Proof.
  induction l as [|x l IH]; simpl; [reflexivity |].
  destruct (f x); [reflexivity | exact IH].
Qed.

Lemma progress_after_cases u e g date l :
  (existsb (is_progress_of u e) l = true
   /\ exists a n, progress_after u e g date l = map (overwrite u e a n date) l)
  \/ (existsb (is_progress_of u e) l = false
      /\ progress_after u e g date l = (l ++ [mk_progress u e g 1 date])%list).
Proof.
  unfold progress_after. rewrite find_existsb.
  destruct (find (is_progress_of u e) l) as [p|].
  - left. split; [reflexivity |]. now eexists _, _.
  - right. now split.
Qed.

Lemma existsb_key u e l :
  In (u, e) (map progress_key l) -> existsb (is_progress_of u e) l = true.
Proof.
  intros H. apply in_map_iff in H. destruct H as (p & Hk & Hin).
  apply existsb_exists. exists p. split; [exact Hin |].
  now apply is_progress_of_key.
Qed.

Lemma NoDup_map_filter {A B} (k : A -> B) (f : A -> bool) (l : list A) :
  NoDup (map k l) -> NoDup (map k (filter f l)).
Proof.
  induction l as [|x l IH]; simpl; intros H; [constructor |].
  inversion H as [|? ? Hx Hl]; subst.
  destruct (f x); simpl; [| now apply IH].
  constructor; [| now apply IH].
  intros Hin. apply Hx.
  apply in_map_iff in Hin. destruct Hin as (y & Hy & Hin).
  apply filter_In in Hin. apply in_map_iff. exists y. tauto.
Qed.

Lemma progress_after_NoDup u e g date l :
  NoDup (map progress_key l) ->
  NoDup (map progress_key (progress_after u e g date l)).
Proof.
  intros H.
  destruct (progress_after_cases u e g date l)
    as [[_ (a & n & ->)] | [Hnone ->]].
  - rewrite map_map.
    erewrite map_ext; [exact H |].
    intros p. apply progress_key_overwrite.
  - rewrite map_app. simpl.
    apply NoDup_app; [exact H | repeat constructor; intros [] |].
    intros k Hk [<- | []].
    apply existsb_key in Hk. unfold progress_key in Hk; simpl in Hk.
    congruence.
Qed.

Lemma progress_after_counts u e g date l :
  Forall (fun p => 1 <= p_attempt_count p) l ->
  Forall (fun p => 1 <= p_attempt_count p) (progress_after u e g date l).
Proof.
  intros H. unfold progress_after.
  destruct (find (is_progress_of u e) l) as [p|] eqn:Hf.
  - apply find_some in Hf. destruct Hf as [Hin _].
    assert (Hp : 1 <= p_attempt_count p).
    { rewrite Forall_forall in H. now apply H. }
    apply Forall_map. apply Forall_impl with (2 := H).
    intros q Hq. unfold overwrite.
    destruct (is_progress_of u e q); simpl; lia.
  - apply Forall_app. split; [exact H |].
    constructor; [simpl; lia | constructor].
Qed.

Lemma progress_ok_eq (d d' : db) :
  user_progress d' = user_progress d -> progress_ok d -> progress_ok d'.
Proof. unfold progress_ok. now intros ->. Qed.

Lemma run_preserves_progress_ok
  (plan : list progress_row -> list progress_row) (c : call) (w : world) :
  progress_ok (store w) -> progress_ok (store (snd (run plan c w))).
Proof.
  intros H. pose proof (run_user_progress plan c w) as Hc. cbv zeta in Hc.
  assert (Hafter : forall u e g date,
             user_progress (store (snd (run plan c w)))
             = progress_after u e g date (user_progress (store w)) ->
             progress_ok (store (snd (run plan c w)))).
  { intros u e g date Heq. unfold progress_ok. rewrite Heq.
    destruct H as [Hk Hn]. split.
    - now apply progress_after_NoDup.
    - now apply progress_after_counts. }
  destruct c; try (apply (progress_ok_eq _ _ Hc H));
    destruct Hc as [Hc | Hc];
    try (apply (progress_ok_eq _ _ Hc H));
    try (now apply Hafter in Hc).
  unfold progress_ok. rewrite Hc. destruct H as [Hk Hn]. split.
  - now apply NoDup_map_filter.
  - now apply incl_Forall with (2 := Hn), incl_filter.
Qed.

(** What is committed after a call was committed before it, or is what
    the connection saw before or sees after the call. *)
Lemma perform_committed
  (plan : list progress_row -> list progress_row) (c : call) (w : world) :
  let w' := snd (perform plan c w) in
  user_progress (committed w') = user_progress (committed w)
  \/ user_progress (committed w') = user_progress (store w)
  \/ user_progress (committed w') = user_progress (store w').
Proof.
  destruct w as [o [t us useq es eseq gs gseq ps] cm out].
  destruct c; destruct o, t; crush_call;
    repeat (break_match; simpl; try discriminate);
    auto.
Qed.

Lemma run_committed
  (plan : list progress_row -> list progress_row) (c : call) (w : world) :
  let w' := snd (run plan c w) in
  user_progress (committed w') = user_progress (committed w)
  \/ user_progress (committed w') = user_progress (store w)
  \/ user_progress (committed w') = user_progress (store w').
Proof.
  destruct (run_perform plan c w) as [-> | [-> _]].
  - apply perform_committed.
  - now left.
Qed.

Lemma reachable_progress_ok
  (plan : list progress_row -> list progress_row) (w : world) :
  reachable plan w -> progress_ok (store w) /\ progress_ok (committed w).
Proof.
  induction 1 as [|c w Hw [IHs IHc]|w Hw [IHs IHc]].
  - split; split; constructor.
  - pose proof (run_preserves_progress_ok plan c w IHs) as Hs.
    split; [exact Hs |].
    destruct (run_committed plan c w) as [Hc | [Hc | Hc]].
    + exact (progress_ok_eq _ _ Hc IHc).
    + exact (progress_ok_eq _ _ Hc IHs).
    + exact (progress_ok_eq _ _ Hc Hs).
  - split; exact IHc.
Qed.

Lemma reachable_unique_keys
  (plan : list progress_row -> list progress_row) (w : world) :
  reachable plan w -> NoDup (map progress_key (user_progress (store w))).
Proof. intros H. apply (reachable_progress_ok plan w H). Qed.

Lemma reachable_counts
  (plan : list progress_row -> list progress_row) (w : world) :
  reachable plan w ->
  Forall (fun p => 1 <= p_attempt_count p) (user_progress (store w)).
Proof. intros H. apply (reachable_progress_ok plan w H). Qed.

(** Sequences of calls stay within the reachable states. *)
Lemma run_all_reachable_cs
  (plan : list progress_row -> list progress_row) (cs : list call) :
  forall w, reachable plan w -> reachable plan (snd (run_all plan cs w)).
Proof.
  induction cs as [|c cs IH]; intros w Hw; [exact Hw |].
  simpl. unfold bind.
  pose proof (reachable_call plan c w Hw) as Hc.
  destruct (run plan c w) as [[v | e] w1]; simpl in *.
  - now apply IH.
  - exact Hc.
Qed.

(** C9.  In every state a program can reach, no two rows of
    [user_progress] have the same (user, exercise) pair.  From such a
    state [update_user_progression], when a row of the pair is present,
    adds no row and (on a connection that is ready) overwrites that row
    where it stands; when none is present it appends at most one row, of
    that pair (and does append it when the connection is ready and the
    user and the exercise exist).  A call of any function other than
    [add_grade] and [update_user_progression] adds no row to the table. *)
Theorem progress_rows_unique
  (plan : list progress_row -> list progress_row) (w : world) :
  reachable plan w ->
  let l := user_progress (store w) in
  NoDup (map progress_key l)
  /\ (forall u e g date,
         let l' :=
           user_progress (store (snd (update_user_progression u e g date w))) in
         (existsb (is_progress_of u e) l = true ->
          (l' = l \/ exists a n, l' = map (overwrite u e a n date) l)
          /\ (ready w -> exists a n, l' = map (overwrite u e a n date) l))
         /\ (existsb (is_progress_of u e) l = false ->
             (l' = l \/ l' = (l ++ [mk_progress u e g 1 date])%list)
             /\ (ready w ->
                 has_user (store w) u = true ->
                 has_exercise (store w) e = true ->
                 l' = (l ++ [mk_progress u e g 1 date])%list)))
  /\ (forall c,
         inserted_key c = None ->
         incl (user_progress (store (snd (run plan c w)))) l).
Proof.
  intros Hw l. split; [now apply reachable_unique_keys with plan |]. split.
  - intros u e g date l'.
    pose proof (perform_user_progress plan (UpdateUserProgression u e g date)
                                      w) as Hc.
    cbv zeta in Hc. unfold perform in Hc. rewrite snd_none in Hc.
    fold l l' in Hc.
    assert (Hok : ready w ->
                  (find (is_progress_of u e) l = None ->
                   has_user (store w) u = true
                   /\ has_exercise (store w) e = true) ->
                  l' = progress_after u e g date l).
    { intros Hr Hfk. subst l'.
      rewrite update_user_progression_ok; [reflexivity | exact Hr | exact Hfk |].
      intros p Hp. apply find_some in Hp. destruct Hp as [Hin _].
      pose proof (reachable_counts plan w Hw) as Hcount.
      rewrite Forall_forall in Hcount. specialize (Hcount p Hin). lia. }
    destruct (progress_after_cases u e g date l)
      as [[Hsome (a & n & Heq)] | [Hnone Heq]];
      rewrite Heq in Hc, Hok.
    + split; intros Hx; [| congruence]. split.
      * destruct Hc as [Hc | Hc]; [now left | right; now exists a, n].
      * intros Hr. exists a, n. apply Hok; [exact Hr |].
        intros Hf. rewrite find_existsb, Hf in Hsome. discriminate.
    + split; intros Hx; [congruence |]. split; [exact Hc |].
      intros Hr Hu He. apply Hok; [exact Hr | now split].
  - intros c Hc. pose proof (run_user_progress plan c w) as Hl.
    cbv zeta in Hl. fold l in Hl.
    destruct c; try discriminate Hc; try (rewrite Hl; apply incl_refl).
    destruct Hl as [-> | ->]; [apply incl_refl | apply incl_filter].
Qed.

Lemma progress_rows_unique_witness :
  let w := demo in
  let l := user_progress (store w) in
  NoDup (map progress_key l)
  /\ (forall u e g date,
         let l' :=
           user_progress (store (snd (update_user_progression u e g date w))) in
         (existsb (is_progress_of u e) l = true ->
          (l' = l \/ exists a n, l' = map (overwrite u e a n date) l)
          /\ (ready w -> exists a n, l' = map (overwrite u e a n date) l))
         /\ (existsb (is_progress_of u e) l = false ->
             (l' = l \/ l' = (l ++ [mk_progress u e g 1 date])%list)
             /\ (ready w ->
                 has_user (store w) u = true ->
                 has_exercise (store w) e = true ->
                 l' = (l ++ [mk_progress u e g 1 date])%list)))
  /\ (forall c,
         inserted_key c = None ->
         incl (user_progress (store (snd (run (fun l => l) c w)))) l).
Proof.
  apply (progress_rows_unique (fun l => l) demo).
  unfold demo. apply run_all_reachable_cs, reachable_connect.
Defined.

(** ** Storage errors *)







(** A failed [add_user]: the error is printed, the call returns, no row
    is added. *)
Example add_user_without_name :
  add_user None "2024-01-02 09:00:00" demo
  = (Return tt,
     mk_world true (store demo) (committed demo)
              ["Database Error: NOT NULL constraint failed: users.name"]).
Proof. vm_compute. reflexivity. Qed.

(** A read before [create_tables]: the error is printed and the empty
    list returned. *)
Example get_users_without_tables :
  get_users (create_connection empty_db)
  = (Return [],
     mk_world true empty_db empty_db
              ["Error getting the users: no such table: users"]).
Proof. vm_compute. reflexivity. Qed.


(** On a closed connection the handler runs and then [cursor.close()]
    reads a local that was never bound: every function that has the
    [try] ... [finally] shape raises [UnboundLocalError]. *)
Lemma closed_connection_raises
  (plan : list progress_row -> list progress_row) (c : call) (w : world) :
  is_open w = false ->
  c <> CreateTables ->
  fst (run plan c w) = Raise UnboundLocalError.
Proof.
  intros Ho Hc. destruct w as [o d cm out]; simpl in Ho; subst o.
  destruct c; try contradiction; reflexivity.
Qed.

Lemma demo_reachable : reachable (fun l => l) demo.
Proof. apply run_all_reachable_cs, reachable_connect. Qed.

(** * Further properties *)

(** ** Fresh ids *)

Lemma fold_max_ge (ids : list Z) (i : Z) :
  In i ids -> i <= fold_right Z.max 0 ids.
Proof.
  induction ids as [|j ids IH]; simpl; [tauto |].
  intros [-> | H]; [lia | specialize (IH H); lia].
Qed.

Lemma next_rowid_fresh (seq : Z) (ids : list Z) :
  seq < next_rowid seq ids
  /\ 1 <= next_rowid seq ids
  /\ Forall (fun i => i < next_rowid seq ids) ids.
Proof.
  unfold next_rowid. repeat split; try lia.
  - assert (0 <= fold_right Z.max 0 ids).
    { induction ids; simpl; lia. }
    lia.
  - apply Forall_forall. intros i Hi. apply fold_max_ge in Hi. lia.
Qed.

(** ** [add_user] and [get_users], [add_exercise] and [get_exercises] *)

Lemma get_users_ready (w : world) :
  ready w -> get_users w = (Return (users (store w)), w).
Proof.
  intros [Ho Ht]. destruct w as [o d c out]; simpl in *; subst o.
  unfold_calls; unfold_monad; simpl. unfold select_users.
  now rewrite (resolve_users _ Ht).
Qed.

Lemma get_exercises_ready (w : world) :
  ready w -> get_exercises w = (Return (exercises (store w)), w).
Proof.
  intros [Ho Ht]. destruct w as [o d c out]; simpl in *; subst o.
  unfold_calls; unfold_monad; simpl. unfold select_exercises.
  now rewrite (resolve_exercises _ Ht).
Qed.

(** X1.  After [add_user] with a name, [get_users] returns the rows it
    returned before followed by one row with that name and timestamp; the
    id of the new row is above the counter and above the id of every row
    present; the other tables are untouched and the insertion is
    committed. *)
Theorem add_user_then_get_users (w : world) (name date : string) :
  ready w ->
  let id := next_rowid (users_seq (store w)) (map u_id (users (store w))) in
  let w' := snd (add_user (Some name) date w) in
  fst (add_user (Some name) date w) = Return tt
  /\ get_users w'
     = (Return (users (store w) ++ [mk_user id name date])%list, w')
  /\ users_seq (store w) < id
  /\ Forall (fun u => u_id u < id) (users (store w))
  /\ exercises (store w') = exercises (store w)
  /\ grades (store w') = grades (store w)
  /\ user_progress (store w') = user_progress (store w)
  /\ committed w' = store w'
  /\ stdout w' = stdout w.
Proof.
  intros Hr id w'.
  assert (Hw' : add_user (Some name) date w
                = (Return tt,
                   let d := set_users_seq id
                              (set_users (users (store w)
                                          ++ [mk_user id name date])%list
                                         (store w)) in
                   mk_world (is_open w) d d (stdout w))).
  { destruct Hr as [Ho Ht].
    destruct w as [o d c out]; simpl in *; subst o.
    unfold_calls; unfold_monad; simpl. unfold insert_user.
    now rewrite (resolve_users _ Ht). }
  subst w'. rewrite Hw'. cbv zeta. cbn [fst snd].
  split; [reflexivity |]. split.
  { rewrite get_users_ready; [reflexivity |].
    destruct Hr as [Ho Ht]. split; assumption. }
  destruct (next_rowid_fresh (users_seq (store w))
                             (map u_id (users (store w))))
    as (Hseq & _ & Hids).
  split; [exact Hseq |]. split; [| repeat split].
  now rewrite Forall_map in Hids.
Qed.

Lemma add_user_then_get_users_witness :
  let id := next_rowid (users_seq (store demo)) (map u_id (users (store demo))) in
  let w' := snd (add_user (Some "Ann") "2024-01-02 09:00:00" demo) in
  fst (add_user (Some "Ann") "2024-01-02 09:00:00" demo) = Return tt
  /\ get_users w'
     = (Return (users (store demo)
                ++ [mk_user id "Ann" "2024-01-02 09:00:00"])%list, w')
  /\ users_seq (store demo) < id
  /\ Forall (fun u => u_id u < id) (users (store demo))
  /\ exercises (store w') = exercises (store demo)
  /\ grades (store w') = grades (store demo)
  /\ user_progress (store w') = user_progress (store demo)
  /\ committed w' = store w'
  /\ stdout w' = stdout demo.
Proof.
  apply (add_user_then_get_users demo "Ann" "2024-01-02 09:00:00").
  split; vm_compute; reflexivity.
Defined.

(** X2.  [add_exercise] with a name and a description appends one row,
    which [get_exercises] then returns last, with an id above every id
    present; when the name or the description is [None] the insertion is
    refused (NOT NULL), the refusal is printed and nothing changes. *)
Theorem add_exercise_then_get_exercises
  (w : world) (name description : option string) :
  ready w ->
  let id := next_rowid (exercises_seq (store w))
                       (map e_id (exercises (store w))) in
  let w' := snd (add_exercise name description w) in
  fst (add_exercise name description w) = Return tt
  /\ match name, description with
     | Some n, Some ds =>
         get_exercises w'
         = (Return (exercises (store w) ++ [mk_exercise id n ds])%list, w')
         /\ Forall (fun e => e_id e < id) (exercises (store w))
         /\ committed w' = store w'
         /\ stdout w' = stdout w
     | _, _ =>
         store w' = store w
         /\ committed w' = committed w
         /\ exists column,
              stdout w'
              = (stdout w
                 ++ [String.append
                       "Database Error: NOT NULL constraint failed: exercises."
                       column])%list
     end.
Proof.
  intros [Ho Ht] id w'. subst w'.
  destruct w as [o d c out]; simpl in *; subst o.
  unfold add_exercise. unfold_monad; simpl. unfold insert_exercise.
  rewrite (resolve_exercises _ Ht).
  destruct name as [n|], description as [ds|]; simpl;
    (split; [reflexivity |]).
  - split.
    + rewrite get_exercises_ready; [reflexivity | split; [reflexivity | exact Ht]].
    + destruct (next_rowid_fresh (exercises_seq d) (map e_id (exercises d)))
        as (_ & _ & Hids).
      rewrite Forall_map in Hids. repeat split. exact Hids.
  - repeat split. now exists "description".
  - repeat split. now exists "name".
  - repeat split. now exists "name".
Qed.

Lemma add_exercise_then_get_exercises_witness :
  let id := next_rowid (exercises_seq (store demo))
                       (map e_id (exercises (store demo))) in
  let w' := snd (add_exercise (Some "Scales") (Some "Sing a scale") demo) in
  fst (add_exercise (Some "Scales") (Some "Sing a scale") demo) = Return tt
  /\ (get_exercises w'
      = (Return (exercises (store demo)
                 ++ [mk_exercise id "Scales" "Sing a scale"])%list, w')
      /\ Forall (fun e => e_id e < id) (exercises (store demo))
      /\ committed w' = store w'
      /\ stdout w' = stdout demo).
Proof.
  apply (add_exercise_then_get_exercises
           demo (Some "Scales") (Some "Sing a scale")).
  split; vm_compute; reflexivity.
Defined.

(** ** [add_grade] and [get_grades_of_user] *)

Lemma get_grades_of_user_ready (w : world) (u : Z) :
  ready w ->
  get_grades_of_user u w
  = (Return (map grade_tuple
               (order_by_desc (fun ge => g_time_attempt (fst ge))
                              (grades_with_exercise u (store w)))), w).
Proof.
  intros [Ho Ht]. destruct w as [o d c out]; simpl in *; subst o.
  unfold_calls; unfold_monad; simpl. unfold select_grades_of_user.
  now rewrite (resolve_grades _ Ht), (resolve_exercises _ Ht).
Qed.

Lemma listed_iff (w : world) (u : Z) (t : string * Q * string) :
  In t (map grade_tuple
          (order_by_desc (fun ge => g_time_attempt (fst ge))
                         (grades_with_exercise u (store w))))
  <-> exists g e, t = grade_tuple (g, e)
                  /\ In g (grades (store w)) /\ In e (exercises (store w))
                  /\ g_exercise_id g = e_id e /\ g_user_id g = u.
Proof.
  rewrite in_map_iff. split.
  - intros ([g e] & <- & Hin).
    apply (Permutation_in _ (order_by_desc_permutation _ _)) in Hin.
    apply grades_with_exercise_In in Hin. now exists g, e.
  - intros (g & e & -> & H). exists (g, e). split; [reflexivity |].
    apply (Permutation_in _ (Permutation_sym (order_by_desc_permutation _ _))).
    now apply grades_with_exercise_In.
Qed.

(** X3.  A grade added for an existing user and an existing exercise is
    listed by [get_grades_of_user] for that user, with the name of the
    exercise and the timestamp of the insertion, and every tuple listed
    before is still listed. *)
Theorem add_grade_then_listed
  (w : world) (user_id : Z) (ex : exercise_row) (grade : Q)
  (date progress_date : string) :
  ready w ->
  has_user (store w) user_id = true ->
  In ex (exercises (store w)) ->
  (forall p, find (is_progress_of user_id (e_id ex)) (user_progress (store w))
             = Some p -> p_attempt_count p <> -1) ->
  let w' := snd (add_grade user_id (e_id ex) grade date progress_date w) in
  exists before after,
    get_grades_of_user user_id w = (Return before, w)
    /\ get_grades_of_user user_id w' = (Return after, w')
    /\ In (e_name ex, grade, date) after
    /\ incl before after.
Proof.
  intros Hr Hu Hex Hn w'.
  assert (He : has_exercise (store w) (e_id ex) = true).
  { apply existsb_exists. exists ex. split; [exact Hex | apply Z.eqb_refl]. }
  assert (Hn' : forall p,
             find (is_progress_of user_id (e_id ex)) (user_progress (store w))
             = Some p -> p_attempt_count p + 1 <> 0).
  { intros p Hp. specialize (Hn p Hp). lia. }
  pose proof (add_grade_ok w user_id (e_id ex) grade date progress_date
                           Hr Hu He Hn') as Hstep.
  cbv zeta in Hstep. subst w'. rewrite Hstep. cbn [snd].
  set (w' := mk_world _ _ _ _).
  assert (Hr' : ready w').
  { destruct Hr as [Ho Ht]. split; [exact Ho | exact Ht]. }
  eexists _, _. split; [apply (get_grades_of_user_ready w _ Hr) |].
  split; [apply (get_grades_of_user_ready w' _ Hr') |]. split.
  - apply listed_iff.
    eexists (mk_grade _ user_id (e_id ex) grade date), ex.
    split; [reflexivity |]. subst w'; simpl.
    repeat split; [| exact Hex].
    apply in_or_app. right. now left.
  - intros t Ht. apply listed_iff in Ht. apply listed_iff.
    destruct Ht as (g & e & -> & Hg & He' & Hid & Hu').
    exists g, e. split; [reflexivity |]. subst w'; simpl.
    repeat split; try assumption.
    apply in_or_app. now left.
Qed.

Lemma add_grade_then_listed_witness :
  let w' := snd (add_grade 1 (e_id (mk_exercise 1 "Test" "Testing insertion"))
                           70 "2024-01-02 09:00:00" "2024-01-02 09:00:00"
                           demo) in
  exists before after,
    get_grades_of_user 1 demo = (Return before, demo)
    /\ get_grades_of_user 1 w' = (Return after, w')
    /\ In (e_name (mk_exercise 1 "Test" "Testing insertion"), 70%Q,
           "2024-01-02 09:00:00") after
    /\ incl before after.
Proof.
  apply (add_grade_then_listed demo 1 (mk_exercise 1 "Test" "Testing insertion")
                               70 "2024-01-02 09:00:00" "2024-01-02 09:00:00").
  - split; vm_compute; reflexivity.
  - vm_compute; reflexivity.
  - vm_compute. left; reflexivity.
  - vm_compute. intros p [= <-]. simpl. discriminate.
Defined.

(** ** Removals *)

Lemma remove_exercise_spec (w : world) (exercise_id : Z) :
  ready w ->
  let w' := snd (remove_exercise exercise_id w) in
  fst (remove_exercise exercise_id w) = Return tt
  /\ grades (store w')
     = filter (fun g => negb (g_exercise_id g =? exercise_id)%Z)
              (grades (store w))
  /\ users (store w') = users (store w)
  /\ user_progress (store w') = user_progress (store w)
  /\ if has_exercise (store w) exercise_id
        && existsb (fun p => p_exercise_id p =? exercise_id)%Z
                   (user_progress (store w))
     then exercises (store w') = exercises (store w)
          /\ stdout w'
             = (stdout w
                ++ ["Error removing exercise: FOREIGN KEY constraint failed"])%list
          /\ committed w' = committed w
     else exercises (store w')
          = filter (fun e => negb (e_id e =? exercise_id)%Z)
                   (exercises (store w))
          /\ has_exercise (store w') exercise_id = false
          /\ stdout w' = stdout w
          /\ committed w' = store w'.
Proof.
  intros [Ho Ht]. destruct w as [o d c out]; simpl in *; subst o.
  unfold_calls; unfold_monad; simpl.
  unfold delete_grades_of_exercise. rewrite (resolve_grades _ Ht). simpl.
  unfold delete_exercise. rewrite resolve_exercises by exact Ht.
  cbn [grades user_progress set_grades].
  rewrite (existsb_filter_negb (fun g => (g_exercise_id g =? exercise_id)%Z)).
  rewrite orb_false_l.
  change (has_exercise (set_grades _ d) exercise_id)
    with (has_exercise d exercise_id).
  destruct (has_exercise d exercise_id
            && existsb (fun p => (p_exercise_id p =? exercise_id)%Z)
                       (user_progress d));
    simpl; repeat split.
  apply (existsb_filter_negb (fun e => (e_id e =? exercise_id)%Z)).
Qed.

(** X4.  [remove_exercise], for an exercise id within the signed 64-bit
    range, returns; the grade rows of the exercise are gone from the
    database the connection sees, every other grade row, every user row
    and every progress row is as before.  The exercise row is deleted when
    no progress row references the exercise; when one does, the delete is
    refused on the foreign key, the refusal is printed, the exercise row
    stays and nothing is committed. *)
Theorem remove_exercise_effect
  (plan : list progress_row -> list progress_row) (w : world)
  (exercise_id : Z) :
  ready w ->
  int64 exercise_id = true ->
  let w' := snd (run plan (RemoveExercise exercise_id) w) in
  fst (run plan (RemoveExercise exercise_id) w) = Return PyNone
  /\ grades (store w')
     = filter (fun g => negb (g_exercise_id g =? exercise_id)%Z)
              (grades (store w))
  /\ users (store w') = users (store w)
  /\ user_progress (store w') = user_progress (store w)
  /\ if has_exercise (store w) exercise_id
        && existsb (fun p => p_exercise_id p =? exercise_id)%Z
                   (user_progress (store w))
     then exercises (store w') = exercises (store w)
          /\ stdout w'
             = (stdout w
                ++ ["Error removing exercise: FOREIGN KEY constraint failed"])%list
          /\ committed w' = committed w
     else exercises (store w')
          = filter (fun e => negb (e_id e =? exercise_id)%Z)
                   (exercises (store w))
          /\ has_exercise (store w') exercise_id = false
          /\ stdout w' = stdout w
          /\ committed w' = store w'.
Proof.
  intros Hr He. cbv zeta.
  rewrite run_bound by now apply (binds_one _ exercise_id).
  change (perform plan (RemoveExercise exercise_id))
    with (none (remove_exercise exercise_id)).
  rewrite snd_none.
  destruct (remove_exercise_spec w exercise_id Hr) as [Hret Hrest].
  split; [now apply fst_none | exact Hrest].
Qed.

Lemma remove_exercise_effect_witness :
  let w' := snd (run (fun l => l) (RemoveExercise 2) two_exercises) in
  fst (run (fun l => l) (RemoveExercise 2) two_exercises) = Return PyNone
  /\ grades (store w')
     = filter (fun g => negb (g_exercise_id g =? 2)%Z)
              (grades (store two_exercises))
  /\ users (store w') = users (store two_exercises)
  /\ user_progress (store w') = user_progress (store two_exercises)
  /\ if has_exercise (store two_exercises) 2
        && existsb (fun p => p_exercise_id p =? 2)%Z
                   (user_progress (store two_exercises))
     then exercises (store w') = exercises (store two_exercises)
          /\ stdout w'
             = (stdout two_exercises
                ++ ["Error removing exercise: FOREIGN KEY constraint failed"])%list
          /\ committed w' = committed two_exercises
     else exercises (store w')
          = filter (fun e => negb (e_id e =? 2)%Z)
                   (exercises (store two_exercises))
          /\ has_exercise (store w') 2 = false
          /\ stdout w' = stdout two_exercises
          /\ committed w' = store w'.
Proof.
  apply (remove_exercise_effect (fun l => l) two_exercises 2).
  - split; vm_compute; reflexivity.
  - reflexivity.
Defined.

Lemma remove_user_progress_ready (w : world) (u : Z) :
  ready w ->
  remove_user_progress u w
  = (Return tt,
     let d := set_user_progress
                (filter (fun p => negb (p_user_id p =? u)%Z)
                        (user_progress (store w)))
                (store w) in
     mk_world (is_open w) d d (stdout w)).
Proof.
  intros [Ho Ht]. destruct w as [o d c out]; simpl in *; subst o.
  unfold_calls; unfold_monad; simpl. unfold delete_progress_of_user.
  now rewrite (resolve_user_progress _ Ht).
Qed.

Lemma remove_user_unreferenced (w : world) (u : Z) :
  ready w ->
  existsb (fun p => p_user_id p =? u)%Z (user_progress (store w)) = false ->
  remove_user u w
  = (Return tt,
     let d := set_users
                (filter (fun r => negb (u_id r =? u)%Z) (users (store w)))
                (set_grades
                   (filter (fun g => negb (g_user_id g =? u)%Z)
                           (grades (store w)))
                   (store w)) in
     mk_world (is_open w) d d (stdout w)).
Proof.
  intros [Ho Ht] Hp. destruct w as [o d c out]; simpl in *; subst o.
  unfold_calls; unfold_monad; simpl.
  unfold delete_grades_of_user. rewrite (resolve_grades _ Ht). simpl.
  unfold delete_user. rewrite resolve_users by exact Ht.
  cbn [grades user_progress set_grades].
  rewrite (existsb_filter_negb (fun g => (g_user_id g =? u)%Z)), Hp.
  rewrite andb_false_r. reflexivity.
Qed.

Lemma remove_user_progress_then_remove_user_spec (w : world) (user_id : Z) :
  ready w ->
  let w1 := snd (remove_user_progress user_id w) in
  let w2 := snd (remove_user user_id w1) in
  fst (remove_user_progress user_id w) = Return tt
  /\ fst (remove_user user_id w1) = Return tt
  /\ users (store w2)
     = filter (fun r => negb (u_id r =? user_id)%Z) (users (store w))
  /\ grades (store w2)
     = filter (fun g => negb (g_user_id g =? user_id)%Z) (grades (store w))
  /\ user_progress (store w2)
     = filter (fun p => negb (p_user_id p =? user_id)%Z)
              (user_progress (store w))
  /\ exercises (store w2) = exercises (store w)
  /\ has_user (store w2) user_id = false
  /\ committed w2 = store w2
  /\ stdout w2 = stdout w.
Proof.
  intros Hr w1 w2. subst w2 w1.
  rewrite (remove_user_progress_ready w user_id Hr). cbv zeta. cbn [fst snd].
  set (w1 := mk_world _ _ _ _).
  assert (Hr1 : ready w1).
  { destruct Hr as [Ho Ht]. split; [exact Ho | exact Ht]. }
  assert (Hp : existsb (fun p => p_user_id p =? user_id)%Z
                       (user_progress (store w1)) = false).
  { subst w1; simpl.
    apply (existsb_filter_negb (fun p => (p_user_id p =? user_id)%Z)). }
  rewrite (remove_user_unreferenced w1 user_id Hr1 Hp).
  subst w1; simpl. repeat split.
  apply (existsb_filter_negb (fun r => (u_id r =? user_id)%Z)).
Qed.

(** X5.  [remove_user_progress] followed by [remove_user] removes the user
    whatever the state, for a user id within the signed 64-bit range: both
    calls return and print nothing, afterwards the user row, the grade
    rows and the progress rows of that user are gone, the rows of the
    other users and the exercises are as before, and everything is
    committed. *)
Theorem remove_user_progress_then_remove_user
  (plan : list progress_row -> list progress_row) (w : world) (user_id : Z) :
  ready w ->
  int64 user_id = true ->
  let w1 := snd (run plan (RemoveUserProgress user_id) w) in
  let w2 := snd (run plan (RemoveUser user_id) w1) in
  fst (run plan (RemoveUserProgress user_id) w) = Return PyNone
  /\ fst (run plan (RemoveUser user_id) w1) = Return PyNone
  /\ users (store w2)
     = filter (fun r => negb (u_id r =? user_id)%Z) (users (store w))
  /\ grades (store w2)
     = filter (fun g => negb (g_user_id g =? user_id)%Z) (grades (store w))
  /\ user_progress (store w2)
     = filter (fun p => negb (p_user_id p =? user_id)%Z)
              (user_progress (store w))
  /\ exercises (store w2) = exercises (store w)
  /\ has_user (store w2) user_id = false
  /\ committed w2 = store w2
  /\ stdout w2 = stdout w.
Proof.
  intros Hr Hu. cbv zeta.
  assert (Hb : binds (RemoveUserProgress user_id) = true)
    by now apply (binds_one _ user_id).
  assert (Hb' : binds (RemoveUser user_id) = true)
    by now apply (binds_one _ user_id).
  rewrite (run_bound plan _ w Hb).
  change (perform plan (RemoveUserProgress user_id))
    with (none (remove_user_progress user_id)).
  rewrite snd_none, (run_bound plan _ _ Hb').
  change (perform plan (RemoveUser user_id)) with (none (remove_user user_id)).
  rewrite snd_none.
  destruct (remove_user_progress_then_remove_user_spec w user_id Hr)
    as (Hret & Hret' & Hrest).
  split; [now apply fst_none |]. split; [now apply fst_none | exact Hrest].
Qed.

Lemma remove_user_progress_then_remove_user_witness :
  let w1 := snd (run (fun l => l) (RemoveUserProgress 1) demo) in
  let w2 := snd (run (fun l => l) (RemoveUser 1) w1) in
  fst (run (fun l => l) (RemoveUserProgress 1) demo) = Return PyNone
  /\ fst (run (fun l => l) (RemoveUser 1) w1) = Return PyNone
  /\ users (store w2)
     = filter (fun r => negb (u_id r =? 1)%Z) (users (store demo))
  /\ grades (store w2)
     = filter (fun g => negb (g_user_id g =? 1)%Z) (grades (store demo))
  /\ user_progress (store w2)
     = filter (fun p => negb (p_user_id p =? 1)%Z)
              (user_progress (store demo))
  /\ exercises (store w2) = exercises (store demo)
  /\ has_user (store w2) 1 = false
  /\ committed w2 = store w2
  /\ stdout w2 = stdout demo.
Proof.
  apply (remove_user_progress_then_remove_user (fun l => l) demo 1).
  - split; vm_compute; reflexivity.
  - reflexivity.
Defined.

Lemma remove_user_progress_then_get_spec
  (plan : list progress_row -> list progress_row) (w : world) (user_id : Z) :
  ready w ->
  (forall l, Permutation (plan l) l) ->
  let w' := snd (remove_user_progress user_id w) in
  get_user_progress plan user_id w' = (Return ProgressNone, w')
  /\ user_progress (store w')
     = filter (fun p => negb (p_user_id p =? user_id)%Z)
              (user_progress (store w))
  /\ forall p, In p (user_progress (store w)) -> p_user_id p <> user_id ->
               In p (user_progress (store w')).
Proof.
  intros Hr Hplan w'. subst w'.
  rewrite (remove_user_progress_ready w user_id Hr). cbv zeta. cbn [snd].
  set (w' := mk_world _ _ _ _).
  assert (Hr' : ready w').
  { destruct Hr as [Ho Ht]. split; [exact Ho | exact Ht]. }
  split; [| split].
  - rewrite (get_user_progress_ready plan w' user_id Hr').
    destruct (filter _ (plan (user_progress (store w')))) as [|p rest] eqn:Hf;
      [reflexivity | exfalso].
    assert (Hin : In p (filter (fun p => p_user_id p =? user_id)%Z
                               (plan (user_progress (store w')))))
      by (rewrite Hf; now left).
    apply filter_In in Hin. destruct Hin as [Hin Hp].
    apply (Permutation_in _ (Hplan _)) in Hin.
    subst w'; simpl in Hin. apply filter_In in Hin.
    destruct Hin as [_ Hq]. rewrite Hp in Hq. discriminate.
  - reflexivity.
  - intros p Hin Hp. subst w'; simpl. apply filter_In. split; [exact Hin |].
    apply negb_true_iff, Z.eqb_neq, Hp.
Qed.

(** X6.  After [remove_user_progress], for a user id within the signed
    64-bit range, [get_user_progress] finds nothing for that user, in
    whatever order the rows are visited, and the progress rows of the
    other users are as before. *)
Theorem remove_user_progress_then_get
  (plan : list progress_row -> list progress_row) (w : world) (user_id : Z) :
  ready w ->
  int64 user_id = true ->
  (forall l, Permutation (plan l) l) ->
  let w' := snd (run plan (RemoveUserProgress user_id) w) in
  run plan (GetUserProgress user_id) w' = (Return (Progress ProgressNone), w')
  /\ user_progress (store w')
     = filter (fun p => negb (p_user_id p =? user_id)%Z)
              (user_progress (store w))
  /\ forall p, In p (user_progress (store w)) -> p_user_id p <> user_id ->
               In p (user_progress (store w')).
Proof.
  intros Hr Hu Hplan. cbv zeta.
  rewrite (run_bound plan (RemoveUserProgress user_id) w)
    by now apply (binds_one _ user_id).
  change (perform plan (RemoveUserProgress user_id))
    with (none (remove_user_progress user_id)).
  rewrite snd_none.
  destruct (remove_user_progress_then_get_spec plan w user_id Hr Hplan)
    as [Hget Hrest].
  split; [| exact Hrest].
  apply run_fmap with (m := get_user_progress plan user_id);
    [now apply (binds_one _ user_id) | reflexivity | exact Hget].
Qed.

Lemma remove_user_progress_then_get_witness :
  let w' := snd (run (fun l => l) (RemoveUserProgress 1) two_exercises) in
  run (fun l => l) (GetUserProgress 1) w'
  = (Return (Progress ProgressNone), w')
  /\ user_progress (store w')
     = filter (fun p => negb (p_user_id p =? 1)%Z)
              (user_progress (store two_exercises))
  /\ forall p, In p (user_progress (store two_exercises)) ->
               p_user_id p <> 1 -> In p (user_progress (store w')).
Proof.
  apply (remove_user_progress_then_get (fun l => l) two_exercises 1).
  - split; vm_compute; reflexivity.
  - reflexivity.
  - intros l. apply Permutation_refl.
Defined.

(** ** Grades edited behind the aggregate *)

Lemma filter_all {A} (f : A -> bool) (l : list A) :
  Forall (fun x => f x = true) l -> filter f l = l.
Proof.
  induction 1 as [|x l Hx Hl IH]; simpl; [reflexivity |].
  now rewrite Hx, IH.
Qed.

Lemma find_map_overwrite u e a n date l :
  find (is_progress_of u e) (map (overwrite u e a n date) l)
  = option_map (overwrite u e a n date) (find (is_progress_of u e) l).
Proof.
  induction l as [|p l IH]; simpl; [reflexivity |].
  rewrite is_progress_of_overwrite.
  now destruct (is_progress_of u e p).
Qed.

(** Folding a grade in always changes the table. *)
Lemma progress_after_changes u e g date l :
  progress_after u e g date l <> l.
Proof.
  intros Heq. unfold progress_after in Heq.
  destruct (find (is_progress_of u e) l) as [p|] eqn:Hf.
  - pose proof (find_some _ _ Hf) as [_ Hp].
    apply (f_equal (find (is_progress_of u e))) in Heq.
    rewrite find_map_overwrite, Hf in Heq. simpl in Heq.
    injection Heq as Heq. unfold overwrite in Heq. rewrite Hp in Heq.
    apply (f_equal p_attempt_count) in Heq. simpl in Heq. lia.
  - apply (f_equal (@List.length _)) in Heq.
    rewrite length_app in Heq. simpl in Heq. lia.
Qed.

Lemma remove_grade_ready (w : world) (id : Z) :
  ready w ->
  remove_grade id w
  = (Return tt,
     let d := set_grades (filter (fun g => negb (g_id g =? id)%Z)
                                 (grades (store w)))
                         (store w) in
     mk_world (is_open w) d d (stdout w)).
Proof.
  intros [Ho Ht]. destruct w as [o d c out]; simpl in *; subst o.
  unfold_calls; unfold_monad; simpl. unfold delete_grade.
  now rewrite (resolve_grades _ Ht).
Qed.

(** X7.  [remove_grade] does not undo [add_grade].  After a grade is added
    for an existing pair and the row just inserted is removed again, the
    grade rows are the ones there were before, but [user_progress] still
    counts the attempt: it is the table with the grade folded in, which
    differs from the table before. *)
Theorem add_grade_then_remove_grade
  (w : world) (user_id exercise_id : Z) (grade : Q)
  (date progress_date : string) :
  ready w ->
  has_user (store w) user_id = true ->
  has_exercise (store w) exercise_id = true ->
  (forall p, find (is_progress_of user_id exercise_id)
                  (user_progress (store w)) = Some p ->
             p_attempt_count p <> -1) ->
  let id := next_rowid (grades_seq (store w)) (map g_id (grades (store w))) in
  let w1 := snd (add_grade user_id exercise_id grade date progress_date w) in
  let w2 := snd (remove_grade id w1) in
  grades (store w1)
  = (grades (store w) ++ [mk_grade id user_id exercise_id grade date])%list
  /\ fst (remove_grade id w1) = Return tt
  /\ grades (store w2) = grades (store w)
  /\ user_progress (store w2)
     = progress_after user_id exercise_id grade progress_date
                      (user_progress (store w))
  /\ user_progress (store w2) <> user_progress (store w).
Proof.
  intros Hr Hu He Hn id w1 w2.
  assert (Hn' : forall p,
             find (is_progress_of user_id exercise_id)
                  (user_progress (store w)) = Some p ->
             p_attempt_count p + 1 <> 0).
  { intros p Hp. specialize (Hn p Hp). lia. }
  pose proof (add_grade_ok w user_id exercise_id grade date progress_date
                           Hr Hu He Hn') as Hstep.
  cbv zeta in Hstep. fold id in Hstep.
  subst w2 w1. rewrite Hstep. cbn [snd].
  set (w1 := mk_world _ _ _ _).
  assert (Hr1 : ready w1).
  { destruct Hr as [Ho Ht]. split; [exact Ho | exact Ht]. }
  rewrite (remove_grade_ready w1 id Hr1). subst w1; simpl.
  assert (Hgs : filter (fun g => negb (g_id g =? id)%Z)
                       (grades (store w)
                        ++ [mk_grade id user_id exercise_id grade date])%list
                = grades (store w)).
  { rewrite filter_app. simpl. rewrite Z.eqb_refl. simpl.
    rewrite app_nil_r. apply filter_all.
    destruct (next_rowid_fresh (grades_seq (store w))
                               (map g_id (grades (store w))))
      as (_ & _ & Hids).
    rewrite Forall_map in Hids. apply Forall_impl with (2 := Hids).
    intros g Hg. apply negb_true_iff, Z.eqb_neq. fold id in Hg. lia. }
  repeat split; try assumption.
  apply progress_after_changes.
Qed.

Lemma add_grade_then_remove_grade_witness :
  let id := next_rowid (grades_seq (store demo))
                       (map g_id (grades (store demo))) in
  let w1 := snd (add_grade 1 1 70 "2024-01-02 09:00:00" "2024-01-02 09:00:00"
                           demo) in
  let w2 := snd (remove_grade id w1) in
  grades (store w1)
  = (grades (store demo) ++ [mk_grade id 1 1 70 "2024-01-02 09:00:00"])%list
  /\ fst (remove_grade id w1) = Return tt
  /\ grades (store w2) = grades (store demo)
  /\ user_progress (store w2)
     = progress_after 1 1 70 "2024-01-02 09:00:00"
                      (user_progress (store demo))
  /\ user_progress (store w2) <> user_progress (store demo).
Proof.
  apply (add_grade_then_remove_grade
           demo 1 1 70 "2024-01-02 09:00:00" "2024-01-02 09:00:00").
  - split; vm_compute; reflexivity.
  - vm_compute; reflexivity.
  - vm_compute; reflexivity.
  - vm_compute. intros p [= <-]. simpl. discriminate.
Defined.




(** ** [update_user] *)

Lemma update_user_spec (w : world) (name : option string) (user_id : Z) :
  ready w ->
  let w' := snd (update_user name user_id w) in
  fst (update_user name user_id w) = Return tt
  /\ exercises (store w') = exercises (store w)
  /\ grades (store w') = grades (store w)
  /\ user_progress (store w') = user_progress (store w)
  /\ match name with
     | Some n =>
         users (store w') = map (rename n user_id) (users (store w))
         /\ map (fun u => (u_id u, u_created_at u)) (users (store w'))
            = map (fun u => (u_id u, u_created_at u)) (users (store w))
         /\ committed w' = store w'
         /\ stdout w' = stdout w
     | None =>
         users (store w') = users (store w)
         /\ if has_user (store w) user_id
            then committed w' = committed w
                 /\ stdout w'
                    = (stdout w
                       ++ ["Error updating user: NOT NULL constraint failed: users.name"])%list
            else committed w' = store w' /\ stdout w' = stdout w
     end.
Proof.
  intros [Ho Ht] w'. subst w'.
  destruct w as [o d c out]; simpl in *; subst o.
  unfold update_user. unfold_monad; simpl. unfold update_name.
  rewrite (resolve_users _ Ht).
  destruct name as [n|]; simpl.
  - repeat split. rewrite map_map. apply map_ext.
    intros u. now destruct (u_id u =? user_id)%Z.
  - destruct (has_user d user_id); simpl; repeat split.
Qed.

(** X9.  [update_user], for a user id within the signed 64-bit range: with
    a name it renames the user with the given id and leaves ids,
    timestamps, row order and every other table as they were; the change
    is committed.  With [None] as name the update is refused (NOT NULL)
    and reported when the user exists, and it is a silent no-op when the
    user does not exist. *)
Theorem update_user_effect
  (plan : list progress_row -> list progress_row) (w : world)
  (name : option string) (user_id : Z) :
  ready w ->
  int64 user_id = true ->
  let w' := snd (run plan (UpdateUser name user_id) w) in
  fst (run plan (UpdateUser name user_id) w) = Return PyNone
  /\ exercises (store w') = exercises (store w)
  /\ grades (store w') = grades (store w)
  /\ user_progress (store w') = user_progress (store w)
  /\ match name with
     | Some n =>
         users (store w') = map (rename n user_id) (users (store w))
         /\ map (fun u => (u_id u, u_created_at u)) (users (store w'))
            = map (fun u => (u_id u, u_created_at u)) (users (store w))
         /\ committed w' = store w'
         /\ stdout w' = stdout w
     | None =>
         users (store w') = users (store w)
         /\ if has_user (store w) user_id
            then committed w' = committed w
                 /\ stdout w'
                    = (stdout w
                       ++ ["Error updating user: NOT NULL constraint failed: users.name"])%list
            else committed w' = store w' /\ stdout w' = stdout w
     end.
Proof.
  intros Hr Hu. cbv zeta.
  rewrite run_bound by now apply (binds_one _ user_id).
  change (perform plan (UpdateUser name user_id))
    with (none (update_user name user_id)).
  rewrite snd_none.
  destruct (update_user_spec w name user_id Hr) as [Hret Hrest].
  split; [now apply fst_none | exact Hrest].
Qed.

Lemma update_user_effect_witness :
  let w' := snd (run (fun l => l) (UpdateUser (Some "Johnny") 1) demo) in
  fst (run (fun l => l) (UpdateUser (Some "Johnny") 1) demo) = Return PyNone
  /\ exercises (store w') = exercises (store demo)
  /\ grades (store w') = grades (store demo)
  /\ user_progress (store w') = user_progress (store demo)
  /\ (users (store w') = map (rename "Johnny" 1) (users (store demo))
      /\ map (fun u => (u_id u, u_created_at u)) (users (store w'))
         = map (fun u => (u_id u, u_created_at u)) (users (store demo))
      /\ committed w' = store w'
      /\ stdout w' = stdout demo).
Proof.
  apply (update_user_effect (fun l => l) demo (Some "Johnny") 1).
  - split; vm_compute; reflexivity.
  - reflexivity.
Defined.

(** ** [get_user_progress] when there is one row to find *)

(** X10.  When the user has exactly one progress row, [get_user_progress]
    returns the columns of that row (without the exercise id), in whatever
    order the rows are visited. *)
Theorem get_user_progress_single_row
  (plan : list progress_row -> list progress_row) (w : world) (user_id : Z)
  (p : progress_row) :
  ready w ->
  (forall l, Permutation (plan l) l) ->
  filter (fun r => p_user_id r =? user_id)%Z (user_progress (store w)) = [p] ->
  get_user_progress plan user_id w
  = (Return (ProgressRow (p_user_id p) (p_average_grade p)
                         (p_attempt_count p) (p_last_attempt p)), w).
Proof.
  intros Hr Hplan Hone.
  rewrite (get_user_progress_ready plan w user_id Hr).
  assert (Hp : In p (filter (fun r => p_user_id r =? user_id)%Z
                            (user_progress (store w))))
    by (rewrite Hone; now left).
  apply filter_In in Hp. destruct Hp as [Hin Hu].
  destruct (filter _ (plan (user_progress (store w)))) as [|q rest] eqn:Hf.
  - exfalso.
    assert (Hq : In p (filter (fun r => p_user_id r =? user_id)%Z
                              (plan (user_progress (store w))))).
    { apply filter_In. split; [| exact Hu].
      apply (Permutation_in _ (Permutation_sym (Hplan _))), Hin. }
    rewrite Hf in Hq. destruct Hq.
  - assert (Hq : In q (filter (fun r => p_user_id r =? user_id)%Z
                              (plan (user_progress (store w)))))
      by (rewrite Hf; now left).
    apply filter_In in Hq. destruct Hq as [Hq Hqu].
    apply (Permutation_in _ (Hplan _)) in Hq.
    assert (Hq' : In q (filter (fun r => p_user_id r =? user_id)%Z
                               (user_progress (store w))))
      by (apply filter_In; now split).
    rewrite Hone in Hq'. destruct Hq' as [<- | []]. reflexivity.
Qed.

Lemma get_user_progress_single_row_witness :
  get_user_progress (prefer (mk_progress 7 7 0 0 "")) 1 demo
  = (Return (ProgressRow
               (p_user_id (mk_progress 1 1 (1470 # 24) 4 "2024-01-01 10:00:04"))
               (p_average_grade
                  (mk_progress 1 1 (1470 # 24) 4 "2024-01-01 10:00:04"))
               (p_attempt_count
                  (mk_progress 1 1 (1470 # 24) 4 "2024-01-01 10:00:04"))
               (p_last_attempt
                  (mk_progress 1 1 (1470 # 24) 4 "2024-01-01 10:00:04"))),
     demo).
Proof.
  apply (get_user_progress_single_row
           (prefer (mk_progress 7 7 0 0 "")) demo 1
           (mk_progress 1 1 (1470 # 24) 4 "2024-01-01 10:00:04")).
  - split; vm_compute; reflexivity.
  - intros l. apply prefer_permutation.
  - vm_compute; reflexivity.
Defined.

(** ** The running average from an existing row *)



(** ** The average over binary64 *)

(** X12.  Over binary64 the new average can leave the interval that holds
    the old average and the new grade: an average of 0.1 over 2 attempts
    and a grade of 0.1 give an average above 0.1, and an average of 0.7
    over 2 attempts and a grade of 0.7 give an average below 0.7. *)
Theorem calculate_progress_binary64_leaves_bounds :
  (exists average,
      calculate_progress_binary64 (Some (one_tenth, 2)) one_tenth
      = Return (average, 3)
      /\ (one_tenth <? average)%float = true)
  /\ (exists average,
         calculate_progress_binary64 (Some (seven_tenths, 2)) seven_tenths
         = Return (average, 3)
         /\ (average <? seven_tenths)%float = true).
Proof.
  split; eexists; (split; [vm_compute; reflexivity |]); vm_compute; reflexivity.
Qed.

(** ** Properties kept by every call *)

Section Keeps.
Context (Inv : db -> Prop).

Lemma keeps_ret {A} (a : A) : keeps Inv (ret a).
Proof. intros w H. exact H. Qed.

Lemma keeps_lift {A} (r : result A) : keeps Inv (lift r).
Proof. intros w H. exact H. Qed.

Lemma keeps_print (line : string) : keeps Inv (print line).
Proof. intros w H. exact H. Qed.

Lemma keeps_commit : keeps Inv commit.
Proof. intros w [Hs _]. split; exact Hs. Qed.

Lemma keeps_connection_cursor : keeps Inv connection_cursor.
Proof.
  intros w H. unfold connection_cursor. now destruct (is_open w).
Qed.

Lemma keeps_fetch {A} (q : query A) : keeps Inv (fetch q).
Proof.
  intros w H. unfold fetch. now destruct (q (store w)).
Qed.

Lemma keeps_execute (s : statement) :
  statement_keeps Inv s -> keeps Inv (execute s).
Proof.
  intros Hs w [H Hc]. unfold execute.
  destruct (s (store w)) as [err | d] eqn:E; simpl; [now split |].
  split; [exact (Hs _ _ E H) | exact Hc].
Qed.

Lemma keeps_bind {A B} (m : M A) (k : A -> M B) :
  keeps Inv m -> (forall a, keeps Inv (k a)) -> keeps Inv (bind m k).
Proof.
  intros Hm Hk w H. unfold bind. specialize (Hm w H).
  destruct (m w) as [[a | e] w1]; simpl in *; [now apply Hk | exact Hm].
Qed.

Lemma keeps_with_cursor {A} (body : M A) (handler : sqlite3_Error -> M A) :
  keeps Inv body -> (forall err, keeps Inv (handler err)) ->
  keeps Inv (with_cursor body handler).
Proof.
  intros Hb Hh w H. unfold with_cursor.
  pose proof (keeps_connection_cursor w H) as Hc.
  destruct (connection_cursor w) as [[[] | e] w1]; simpl in Hc.
  - specialize (Hb w1 Hc).
    destruct (body w1) as [[a | [err | | |]] w2]; simpl in *; try exact Hb.
    now apply Hh.
  - destruct e as [err | | |]; simpl; try exact Hc.
    specialize (Hh err w1 Hc).
    now destruct (handler err w1).
Qed.

Lemma keeps_none (m : M unit) : keeps Inv m -> keeps Inv (none m).
Proof.
  intros Hm. apply keeps_bind; [exact Hm | intros; apply keeps_ret].
Qed.

Lemma keeps_fmap {A B} (f : A -> B) (m : M A) :
  keeps Inv m -> keeps Inv (fmap f m).
Proof.
  intros Hm. apply keeps_bind; [exact Hm | intros; apply keeps_ret].
Qed.

Hypothesis insert_user_keeps :
  forall name date, statement_keeps Inv (insert_user name date).
Hypothesis insert_exercise_keeps :
  forall name description,
    statement_keeps Inv (insert_exercise name description).
Hypothesis insert_grade_keeps :
  forall u e g date, statement_keeps Inv (insert_grade u e g date).
Hypothesis insert_progress_keeps :
  forall u e a n date, statement_keeps Inv (insert_progress u e a n date).
Hypothesis update_progress_keeps :
  forall a n date u e, statement_keeps Inv (update_progress a n date u e).
Hypothesis update_name_keeps :
  forall t name id, statement_keeps Inv (update_name t name id).
Hypothesis update_description_keeps :
  forall t ds id, statement_keeps Inv (update_description t ds id).
Hypothesis update_grade_keeps :
  forall g id, statement_keeps Inv (update_grade g id).
Hypothesis delete_grades_of_user_keeps :
  forall u, statement_keeps Inv (delete_grades_of_user u).
Hypothesis delete_grades_of_exercise_keeps :
  forall e, statement_keeps Inv (delete_grades_of_exercise e).
Hypothesis delete_grade_keeps :
  forall id, statement_keeps Inv (delete_grade id).
Hypothesis delete_progress_of_user_keeps :
  forall u, statement_keeps Inv (delete_progress_of_user u).
Hypothesis delete_user_keeps :
  forall id, statement_keeps Inv (delete_user id).
Hypothesis delete_exercise_keeps :
  forall id, statement_keeps Inv (delete_exercise id).
Hypothesis create_script_keeps : statement_keeps Inv create_script.

Lemma perform_keeps
  (plan : list progress_row -> list progress_row) (c : call) :
  keeps Inv (perform plan c).
Proof.
  destruct c; unfold perform; unfold_calls;
    repeat first
      [ apply keeps_none | apply keeps_fmap | apply keeps_with_cursor
      | apply keeps_commit | apply keeps_print | apply keeps_ret
      | apply keeps_fetch | apply keeps_lift | apply keeps_connection_cursor
      | apply keeps_execute; auto
      | match goal with
        | |- keeps _ (match ?x with _ => _ end) => destruct x
        | |- forall _, _ => intro
        end
      | apply keeps_bind ].
Qed.

Lemma run_keeps (plan : list progress_row -> list progress_row) (c : call) :
  keeps Inv (run plan c).
Proof.
  intros w H.
  destruct (run_perform plan c w) as [-> | [-> _]]; [| exact H].
  now apply perform_keeps.
Qed.

Lemma reachable_keeps
  (plan : list progress_row -> list progress_row) (w : world) :
  Inv empty_db -> reachable plan w -> world_inv Inv w.
Proof.
  intros H0. induction 1 as [|c w Hw IH|w Hw IH].
  - split; exact H0.
  - now apply run_keeps.
  - destruct IH as [_ Hc]. split; exact Hc.
Qed.
End Keeps.

(** ** Keys and references *)

Lemma has_user_In (d : db) (x : Z) :
  has_user d x = true <-> In x (map u_id (users d)).
Proof.
  unfold has_user. rewrite existsb_exists, in_map_iff. split.
  - intros (u & Hin & Hu). apply Z.eqb_eq in Hu. now exists u.
  - intros (u & Hu & Hin). exists u. split; [exact Hin | now apply Z.eqb_eq].
Qed.

Lemma has_exercise_In (d : db) (x : Z) :
  has_exercise d x = true <-> In x (map e_id (exercises d)).
Proof.
  unfold has_exercise. rewrite existsb_exists, in_map_iff. split.
  - intros (e & Hin & He). apply Z.eqb_eq in He. now exists e.
  - intros (e & He & Hin). exists e. split; [exact Hin | now apply Z.eqb_eq].
Qed.

Lemma references_ok_iff (d : db) :
  references_ok d
  <-> (forall g, In g (grades d) ->
                 In (g_user_id g) (map u_id (users d))
                 /\ In (g_exercise_id g) (map e_id (exercises d)))
      /\ (forall p, In p (user_progress d) ->
                    In (p_user_id p) (map u_id (users d))
                    /\ In (p_exercise_id p) (map e_id (exercises d))).
Proof.
  unfold references_ok. rewrite !Forall_forall.
  split; intros [Hg Hp]; split; intros x Hx.
  - rewrite <- has_user_In, <- has_exercise_In. now apply Hg.
  - rewrite <- has_user_In, <- has_exercise_In. now apply Hp.
  - rewrite has_user_In, has_exercise_In. now apply Hg.
  - rewrite has_user_In, has_exercise_In. now apply Hp.
Qed.

Lemma StronglySorted_map_filter {A} (k : A -> Z) (f : A -> bool) (l : list A) :
  StronglySorted Z.lt (map k l) -> StronglySorted Z.lt (map k (filter f l)).
Proof.
  induction l as [|x l IH]; simpl; intros H; [constructor |].
  inversion H as [|? ? Hs Hall]; subst.
  destruct (f x); simpl; [| now apply IH].
  constructor; [now apply IH |].
  rewrite Forall_map in *. apply incl_Forall with (2 := Hall), incl_filter.
Qed.

Lemma ids_ok_filter {A} (k : A -> Z) (f : A -> bool) (l : list A) (seq : Z) :
  ids_ok (map k l) seq -> ids_ok (map k (filter f l)) seq.
Proof.
  intros [Hs Hb]. split; [now apply StronglySorted_map_filter |].
  rewrite Forall_map in *. apply incl_Forall with (2 := Hb), incl_filter.
Qed.

Lemma StronglySorted_snoc (ids : list Z) (x : Z) :
  StronglySorted Z.lt ids -> Forall (fun i => i < x) ids ->
  StronglySorted Z.lt (ids ++ [x]).
Proof.
  induction 1 as [|i ids Hs IH Hall]; intros Hx; simpl.
  - repeat constructor.
  - inversion Hx as [|? ? Hi Hrest]; subst.
    constructor; [now apply IH |].
    apply Forall_app. split; [exact Hall | now repeat constructor].
Qed.

Lemma ids_ok_next (ids : list Z) (seq : Z) :
  ids_ok ids seq -> ids_ok (ids ++ [next_rowid seq ids]) (next_rowid seq ids).
Proof.
  intros [Hs Hb].
  destruct (next_rowid_fresh seq ids) as (Hseq & H1 & Hids).
  split.
  - now apply StronglySorted_snoc.
  - apply Forall_app. split.
    + apply Forall_impl with (2 := Hb). intros i Hi. lia.
    + repeat constructor; lia.
Qed.

Lemma consistent_rows (d d' : db) :
  map u_id (users d') = map u_id (users d) ->
  users_seq d' = users_seq d ->
  map e_id (exercises d') = map e_id (exercises d) ->
  exercises_seq d' = exercises_seq d ->
  map (fun g => (g_id g, g_user_id g, g_exercise_id g)) (grades d')
  = map (fun g => (g_id g, g_user_id g, g_exercise_id g)) (grades d) ->
  grades_seq d' = grades_seq d ->
  map progress_key (user_progress d') = map progress_key (user_progress d) ->
  consistent d -> consistent d'.
Proof.
  intros Hu Hus He Hes Hg Hgs Hp [(Hku & Hke & Hkg) Hr].
  assert (Hgid : map g_id (grades d') = map g_id (grades d)).
  { apply (f_equal (map (fun t => fst (fst t)))) in Hg.
    now rewrite !map_map in Hg. }
  split.
  - unfold keys_ok. now rewrite Hu, Hus, He, Hes, Hgid, Hgs.
  - apply references_ok_iff. apply references_ok_iff in Hr.
    destruct Hr as [Hrg Hrp]. rewrite Hu, He. split.
    + intros g Hin.
      apply (in_map (fun g => (g_id g, g_user_id g, g_exercise_id g))) in Hin.
      rewrite Hg in Hin. apply in_map_iff in Hin.
      destruct Hin as (g0 & [= _ <- <-] & Hin0). now apply Hrg.
    + intros p Hin. apply (in_map progress_key) in Hin.
      rewrite Hp in Hin. apply in_map_iff in Hin.
      destruct Hin as (p0 & [= <- <-] & Hin0). now apply Hrp.
Qed.

Lemma insert_user_consistent name date :
  statement_keeps consistent (insert_user name date).
Proof.
  intros d d' H [(Hku & Hke & Hkg) Hr]. unfold insert_user in H.
  destruct (resolve d "users"); [| discriminate].
  destruct name as [n|]; [| discriminate]. injection H as <-.
  split.
  - unfold keys_ok; simpl. split; [| split; assumption].
    rewrite map_app. apply ids_ok_next, Hku.
  - apply references_ok_iff. apply references_ok_iff in Hr.
    destruct Hr as [Hrg Hrp]. simpl. rewrite map_app.
    split; intros x Hx; (split; [apply in_or_app; left |]);
      first [now apply Hrg | now apply Hrp].
Qed.

Lemma insert_exercise_consistent name description :
  statement_keeps consistent (insert_exercise name description).
Proof.
  intros d d' H [(Hku & Hke & Hkg) Hr]. unfold insert_exercise in H.
  destruct (resolve d "exercises"); [| discriminate].
  destruct name as [n|]; [| discriminate].
  destruct description as [ds|]; [| discriminate]. injection H as <-.
  split.
  - unfold keys_ok; simpl. split; [assumption | split; [| assumption]].
    rewrite map_app. apply ids_ok_next, Hke.
  - apply references_ok_iff. apply references_ok_iff in Hr.
    destruct Hr as [Hrg Hrp]. simpl. rewrite map_app.
    split; intros x Hx; (split; [| apply in_or_app; left]);
      first [now apply Hrg | now apply Hrp].
Qed.

Lemma insert_grade_consistent u e g date :
  statement_keeps consistent (insert_grade u e g date).
Proof.
  intros d d' H [(Hku & Hke & Hkg) Hr]. unfold insert_grade in H.
  destruct (resolve d "grades"); [| discriminate].
  destruct (has_user d u && has_exercise d e) eqn:Hfk; [| discriminate].
  injection H as <-. apply andb_true_iff in Hfk. destruct Hfk as [Hu He].
  split.
  - unfold keys_ok; simpl. split; [assumption | split; [assumption |]].
    rewrite map_app. apply ids_ok_next, Hkg.
  - apply references_ok_iff. apply references_ok_iff in Hr.
    destruct Hr as [Hrg Hrp]. simpl. split; [| exact Hrp].
    intros x Hx. apply in_app_or in Hx. destruct Hx as [Hx | [<- | []]].
    + now apply Hrg.
    + simpl. now rewrite <- has_user_In, <- has_exercise_In.
Qed.

Lemma insert_progress_consistent u e a n date :
  statement_keeps consistent (insert_progress u e a n date).
Proof.
  intros d d' H [Hk Hr]. unfold insert_progress in H.
  destruct (resolve d "user_progress"); [| discriminate].
  destruct (existsb (is_progress_of u e) (user_progress d)); [discriminate |].
  destruct (has_user d u && has_exercise d e) eqn:Hfk; [| discriminate].
  injection H as <-. apply andb_true_iff in Hfk. destruct Hfk as [Hu He].
  split; [exact Hk |].
  apply references_ok_iff. apply references_ok_iff in Hr.
  destruct Hr as [Hrg Hrp]. simpl. split; [exact Hrg |].
  intros x Hx. apply in_app_or in Hx. destruct Hx as [Hx | [<- | []]].
  - now apply Hrp.
  - simpl. now rewrite <- has_user_In, <- has_exercise_In.
Qed.

Lemma update_progress_consistent a n date u e :
  statement_keeps consistent (update_progress a n date u e).
Proof.
  intros d d' H Hc. unfold update_progress in H.
  destruct (resolve d "user_progress"); [| discriminate].
  injection H as <-.
  apply (consistent_rows d); try reflexivity; [| exact Hc].
  simpl. rewrite map_map. apply map_ext. intros p.
  now destruct (is_progress_of u e p).
Qed.

Lemma update_name_consistent t name id :
  statement_keeps consistent (update_name t name id).
Proof.
  intros d d' H Hc. unfold update_name in H.
  destruct (resolve d t) as [[| | |]|]; try discriminate.
  - destruct name as [n|].
    + injection H as <-.
      apply (consistent_rows d); try reflexivity; [| exact Hc].
      simpl. rewrite map_map. apply map_ext. intros x.
      now destruct (u_id x =? id)%Z.
    + destruct (has_user d id); [discriminate |]. now injection H as <-.
  - destruct name as [n|].
    + injection H as <-.
      apply (consistent_rows d); try reflexivity; [| exact Hc].
      simpl. rewrite map_map. apply map_ext. intros x.
      now destruct (e_id x =? id)%Z.
    + destruct (has_exercise d id); [discriminate |]. now injection H as <-.
Qed.

Lemma update_description_consistent t ds id :
  statement_keeps consistent (update_description t ds id).
Proof.
  intros d d' H Hc. unfold update_description in H.
  destruct (resolve d t) as [[| | |]|]; try discriminate.
  destruct ds as [s|].
  - injection H as <-.
    apply (consistent_rows d); try reflexivity; [| exact Hc].
    simpl. rewrite map_map. apply map_ext. intros x.
    now destruct (e_id x =? id)%Z.
  - destruct (has_exercise d id); [discriminate |]. now injection H as <-.
Qed.

Lemma update_grade_consistent g id :
  statement_keeps consistent (update_grade g id).
Proof.
  intros d d' H Hc. unfold update_grade in H.
  destruct (resolve d "grades"); [| discriminate].
  injection H as <-.
  apply (consistent_rows d); try reflexivity; [| exact Hc].
  simpl. rewrite map_map. apply map_ext. intros x.
  now destruct (g_id x =? id)%Z.
Qed.

Lemma consistent_fewer_grades (f : grade_row -> bool) (d : db) :
  consistent d -> consistent (set_grades (filter f (grades d)) d).
Proof.
  intros [(Hku & Hke & Hkg) Hr]. split.
  - unfold keys_ok; simpl. split; [assumption | split; [assumption |]].
    now apply ids_ok_filter.
  - apply references_ok_iff. apply references_ok_iff in Hr.
    destruct Hr as [Hrg Hrp]. simpl. split; [| exact Hrp].
    intros x Hx. apply filter_In in Hx. now apply Hrg.
Qed.

Lemma consistent_fewer_progress (f : progress_row -> bool) (d : db) :
  consistent d -> consistent (set_user_progress (filter f (user_progress d)) d).
Proof.
  intros [Hk Hr]. split; [exact Hk |].
  apply references_ok_iff. apply references_ok_iff in Hr.
  destruct Hr as [Hrg Hrp]. simpl. split; [exact Hrg |].
  intros x Hx. apply filter_In in Hx. now apply Hrp.
Qed.

Lemma delete_grades_of_user_consistent u :
  statement_keeps consistent (delete_grades_of_user u).
Proof.
  intros d d' H Hc. unfold delete_grades_of_user in H.
  destruct (resolve d "grades"); [| discriminate].
  injection H as <-. now apply consistent_fewer_grades.
Qed.

Lemma delete_grades_of_exercise_consistent e :
  statement_keeps consistent (delete_grades_of_exercise e).
Proof.
  intros d d' H Hc. unfold delete_grades_of_exercise in H.
  destruct (resolve d "grades"); [| discriminate].
  injection H as <-. now apply consistent_fewer_grades.
Qed.

Lemma delete_grade_consistent id :
  statement_keeps consistent (delete_grade id).
Proof.
  intros d d' H Hc. unfold delete_grade in H.
  destruct (resolve d "grades"); [| discriminate].
  injection H as <-. now apply consistent_fewer_grades.
Qed.

Lemma delete_progress_of_user_consistent u :
  statement_keeps consistent (delete_progress_of_user u).
Proof.
  intros d d' H Hc. unfold delete_progress_of_user in H.
  destruct (resolve d "user_progress"); [| discriminate].
  injection H as <-. now apply consistent_fewer_progress.
Qed.

Lemma in_map_filter_ne {A} (k : A -> Z) (id x : Z) (l : list A) :
  In x (map k l) -> x <> id ->
  In x (map k (filter (fun r => negb (k r =? id)%Z) l)).
Proof.
  intros Hin Hne. apply in_map_iff in Hin. destruct Hin as (r & <- & Hr).
  apply in_map, filter_In. split; [exact Hr |].
  now apply negb_true_iff, Z.eqb_neq.
Qed.

Lemma delete_user_consistent id :
  statement_keeps consistent (delete_user id).
Proof.
  intros d d' H [(Hku & Hke & Hkg) Hr]. unfold delete_user in H.
  destruct (resolve d "users"); [| discriminate].
  destruct (has_user d id
            && (existsb (fun g => (g_user_id g =? id)%Z) (grades d)
                || existsb (fun p => (p_user_id p =? id)%Z) (user_progress d)))
    eqn:Hguard; [discriminate |].
  injection H as <-.
  apply references_ok_iff in Hr. destruct Hr as [Hrg Hrp].
  split.
  - unfold keys_ok; simpl. split; [| split; assumption].
    now apply ids_ok_filter.
  - apply references_ok_iff. simpl. split; intros x Hx.
    + destruct (Hrg x Hx) as [Hu He]. split; [| exact He].
      apply in_map_filter_ne; [exact Hu |]. intros Heq.
      assert (existsb (fun g => (g_user_id g =? id)%Z) (grades d) = true).
      { apply existsb_exists. exists x. split; [exact Hx | now apply Z.eqb_eq]. }
      assert (has_user d id = true) by (apply has_user_In; now rewrite <- Heq).
      rewrite H, H0 in Hguard. discriminate.
    + destruct (Hrp x Hx) as [Hu He]. split; [| exact He].
      apply in_map_filter_ne; [exact Hu |]. intros Heq.
      assert (existsb (fun p => (p_user_id p =? id)%Z) (user_progress d) = true).
      { apply existsb_exists. exists x. split; [exact Hx | now apply Z.eqb_eq]. }
      assert (has_user d id = true) by (apply has_user_In; now rewrite <- Heq).
      rewrite H, H0, orb_true_r in Hguard. discriminate.
Qed.

Lemma delete_exercise_consistent id :
  statement_keeps consistent (delete_exercise id).
Proof.
  intros d d' H [(Hku & Hke & Hkg) Hr]. unfold delete_exercise in H.
  destruct (resolve d "exercises"); [| discriminate].
  destruct (has_exercise d id
            && (existsb (fun g => (g_exercise_id g =? id)%Z) (grades d)
                || existsb (fun p => (p_exercise_id p =? id)%Z)
                           (user_progress d)))
    eqn:Hguard; [discriminate |].
  injection H as <-.
  apply references_ok_iff in Hr. destruct Hr as [Hrg Hrp].
  split.
  - unfold keys_ok; simpl. split; [assumption | split; [| assumption]].
    now apply ids_ok_filter.
  - apply references_ok_iff. simpl. split; intros x Hx.
    + destruct (Hrg x Hx) as [Hu He]. split; [exact Hu |].
      apply in_map_filter_ne; [exact He |]. intros Heq.
      assert (existsb (fun g => (g_exercise_id g =? id)%Z) (grades d) = true).
      { apply existsb_exists. exists x. split; [exact Hx | now apply Z.eqb_eq]. }
      assert (has_exercise d id = true)
        by (apply has_exercise_In; now rewrite <- Heq).
      rewrite H, H0 in Hguard. discriminate.
    + destruct (Hrp x Hx) as [Hu He]. split; [exact Hu |].
      apply in_map_filter_ne; [exact He |]. intros Heq.
      assert (existsb (fun p => (p_exercise_id p =? id)%Z) (user_progress d)
              = true).
      { apply existsb_exists. exists x. split; [exact Hx | now apply Z.eqb_eq]. }
      assert (has_exercise d id = true)
        by (apply has_exercise_In; now rewrite <- Heq).
      rewrite H, H0, orb_true_r in Hguard. discriminate.
Qed.

Lemma create_script_consistent : statement_keeps consistent create_script.
Proof.
  intros d d' H Hc. unfold create_script in H. injection H as <-.
  apply (consistent_rows d); try reflexivity. exact Hc.
Qed.

Lemma empty_db_consistent : consistent empty_db.
Proof.
  split; [repeat split; constructor | split; constructor].
Qed.

Lemma reachable_consistent
  (plan : list progress_row -> list progress_row) (w : world) :
  reachable plan w -> world_inv consistent w.
Proof.
  apply reachable_keeps.
  - exact insert_user_consistent.
  - exact insert_exercise_consistent.
  - exact insert_grade_consistent.
  - exact insert_progress_consistent.
  - exact update_progress_consistent.
  - exact update_name_consistent.
  - exact update_description_consistent.
  - exact update_grade_consistent.
  - exact delete_grades_of_user_consistent.
  - exact delete_grades_of_exercise_consistent.
  - exact delete_grade_consistent.
  - exact delete_progress_of_user_consistent.
  - exact delete_user_consistent.
  - exact delete_exercise_consistent.
  - exact create_script_consistent.
  - exact empty_db_consistent.
Qed.

(** X13.  In every state programs can reach, in what the connection sees
    and in what is committed, the ids of users, of exercises and of grades
    are distinct, positive, increasing in row order, and none is above the
    AUTOINCREMENT counter of its table. *)
Theorem reachable_keys
  (plan : list progress_row -> list progress_row) (w : world) :
  reachable plan w ->
  keys_ok (store w) /\ keys_ok (committed w)
  /\ NoDup (map u_id (users (store w)))
  /\ NoDup (map e_id (exercises (store w)))
  /\ NoDup (map g_id (grades (store w))).
Proof.
  intros H. destruct (reachable_consistent plan w H) as [[Hk _] [Hc _]].
  split; [exact Hk |]. split; [exact Hc |].
  destruct Hk as ([Hu _] & [He _] & [Hg _]).
  assert (Hnd : forall l, StronglySorted Z.lt l -> NoDup l).
  { induction 1 as [|x l Hs IH Hall]; constructor; [| exact IH].
    intros Hin. rewrite Forall_forall in Hall. specialize (Hall x Hin). lia. }
  repeat split; now apply Hnd.
Qed.

Lemma reachable_keys_witness :
  keys_ok (store demo) /\ keys_ok (committed demo)
  /\ NoDup (map u_id (users (store demo)))
  /\ NoDup (map e_id (exercises (store demo)))
  /\ NoDup (map g_id (grades (store demo))).
Proof.
  apply (reachable_keys (fun l => l) demo).
  unfold demo. apply run_all_reachable_cs, reachable_connect.
Defined.

(** X14.  In every state programs can reach, in what the connection sees
    and in what is committed, every grade row and every progress row
    references a user row and an exercise row that exist. *)
Theorem reachable_references
  (plan : list progress_row -> list progress_row) (w : world) :
  reachable plan w ->
  references_ok (store w) /\ references_ok (committed w)
  /\ (forall g, In g (grades (store w)) ->
                (exists u, In u (users (store w)) /\ u_id u = g_user_id g)
                /\ exists e, In e (exercises (store w))
                             /\ e_id e = g_exercise_id g)
  /\ (forall p, In p (user_progress (store w)) ->
                (exists u, In u (users (store w)) /\ u_id u = p_user_id p)
                /\ exists e, In e (exercises (store w))
                             /\ e_id e = p_exercise_id p).
Proof.
  intros H. destruct (reachable_consistent plan w H) as [[_ Hr] [_ Hc]].
  split; [exact Hr |]. split; [exact Hc |].
  apply references_ok_iff in Hr. destruct Hr as [Hg Hp].
  split; intros x Hx.
  - destruct (Hg x Hx) as [Hu He].
    apply in_map_iff in Hu, He.
    destruct Hu as (u & Hu & Hin), He as (e & He & Hin').
    split; [now exists u | now exists e].
  - destruct (Hp x Hx) as [Hu He].
    apply in_map_iff in Hu, He.
    destruct Hu as (u & Hu & Hin), He as (e & He & Hin').
    split; [now exists u | now exists e].
Qed.

Lemma reachable_references_witness :
  references_ok (store demo) /\ references_ok (committed demo)
  /\ (forall g, In g (grades (store demo)) ->
                (exists u, In u (users (store demo)) /\ u_id u = g_user_id g)
                /\ exists e, In e (exercises (store demo))
                             /\ e_id e = g_exercise_id g)
  /\ (forall p, In p (user_progress (store demo)) ->
                (exists u, In u (users (store demo)) /\ u_id u = p_user_id p)
                /\ exists e, In e (exercises (store demo))
                             /\ e_id e = p_exercise_id p).
Proof.
  apply (reachable_references (fun l => l) demo).
  unfold demo. apply run_all_reachable_cs, reachable_connect.
Defined.

(** ** Counters *)

Lemma run_counters
  (plan : list progress_row -> list progress_row) (c : call) (w : world) :
  users_seq (store w) <= users_seq (store (snd (run plan c w)))
  /\ exercises_seq (store w) <= exercises_seq (store (snd (run plan c w)))
  /\ grades_seq (store w) <= grades_seq (store (snd (run plan c w))).
Proof.
  destruct (run_perform plan c w) as [-> | (-> & _)]; [| simpl; lia].
  destruct w as [o [t us useq es eseq gs gseq ps] cm out].
  destruct c; destruct o, t; crush_call;
    repeat (break_match; simpl; try discriminate);
    repeat split; try lia;
    match goal with
    | |- ?s <= next_rowid ?s ?ids =>
        destruct (next_rowid_fresh s ids) as (? & _ & _); lia
    end.
Qed.

(** X15.  No id is given twice.  Over any sequence of calls the
    AUTOINCREMENT counters of users, exercises and grades never decrease,
    and the id the next insertion gets is above the counter as it was at
    the start, hence above every id the table has held until then. *)
Theorem ids_never_reused
  (plan : list progress_row -> list progress_row) (cs : list call) (w : world) :
  let w' := snd (run_all plan cs w) in
  (users_seq (store w) <= users_seq (store w')
   /\ users_seq (store w)
      < next_rowid (users_seq (store w')) (map u_id (users (store w'))))
  /\ (exercises_seq (store w) <= exercises_seq (store w')
      /\ exercises_seq (store w)
         < next_rowid (exercises_seq (store w'))
                      (map e_id (exercises (store w'))))
  /\ (grades_seq (store w) <= grades_seq (store w')
      /\ grades_seq (store w)
         < next_rowid (grades_seq (store w')) (map g_id (grades (store w')))).
Proof.
  cbv zeta.
  assert (Hmono :
            users_seq (store w) <= users_seq (store (snd (run_all plan cs w)))
            /\ exercises_seq (store w)
               <= exercises_seq (store (snd (run_all plan cs w)))
            /\ grades_seq (store w)
               <= grades_seq (store (snd (run_all plan cs w)))).
  { revert w. induction cs as [|c cs IH]; intros w; simpl; [lia |].
    unfold bind. pose proof (run_counters plan c w) as Hc.
    destruct (run plan c w) as [[v | e] w1]; simpl in *; [| exact Hc].
    specialize (IH w1). lia. }
  destruct Hmono as (Hu & He & Hg).
  destruct (next_rowid_fresh
              (users_seq (store (snd (run_all plan cs w))))
              (map u_id (users (store (snd (run_all plan cs w))))))
    as (Hu' & _ & _).
  destruct (next_rowid_fresh
              (exercises_seq (store (snd (run_all plan cs w))))
              (map e_id (exercises (store (snd (run_all plan cs w))))))
    as (He' & _ & _).
  destruct (next_rowid_fresh
              (grades_seq (store (snd (run_all plan cs w))))
              (map g_id (grades (store (snd (run_all plan cs w))))))
    as (Hg' & _ & _).
  repeat split; lia.
Qed.

(** ** [create_tables] *)

(** X16.  On an open connection [create_tables] returns, the tables exist
    afterwards, every row and every counter is as before, what was pending
    is committed, and a second call changes nothing more.  On a closed
    connection the error of [connection.cursor()] reaches the caller: the
    function has no handler. *)
Theorem create_tables_idempotent (w : world) :
  let w' := snd (create_tables w) in
  if is_open w
  then fst (create_tables w) = Return tt
       /\ tables (store w') = true
       /\ users (store w') = users (store w)
       /\ exercises (store w') = exercises (store w)
       /\ grades (store w') = grades (store w)
       /\ user_progress (store w') = user_progress (store w)
       /\ (users_seq (store w'), exercises_seq (store w'), grades_seq (store w'))
          = (users_seq (store w), exercises_seq (store w), grades_seq (store w))
       /\ committed w' = store w'
       /\ stdout w' = stdout w
       /\ create_tables w' = (Return tt, w')
  else create_tables w
       = (Raise (Sqlite (ProgrammingError
                           "Cannot operate on a closed database.")), w).
Proof.
  destruct w as [[|] [t us useq es eseq gs gseq ps] cm out]; simpl;
    repeat split.
Qed.

(** ** Closed connections *)

(** X17.  On a closed connection every function but [create_tables]
    prints the error of [connection.cursor()] and then raises
    [UnboundLocalError]; the database is not touched. *)
Theorem closed_connection_unbound_cursor
  (plan : list progress_row -> list progress_row) (c : call) (w : world) :
  is_open w = false ->
  c <> CreateTables ->
  exists line,
    run plan c w
    = (Raise UnboundLocalError,
       mk_world false (store w) (committed w) (stdout w ++ [line])).
Proof.
  intros Ho Hc. rewrite (run_closed plan c w Ho).
  destruct w as [o d cm out]; simpl in Ho; subst o.
  destruct c; try contradiction; eexists; reflexivity.
Qed.

Lemma closed_connection_unbound_cursor_witness :
  exists line,
    run (fun l => l) GetUsers
        (mk_world false (store demo) (committed demo) (stdout demo))
    = (Raise UnboundLocalError,
       mk_world false
         (store (mk_world false (store demo) (committed demo) (stdout demo)))
         (committed (mk_world false (store demo) (committed demo) (stdout demo)))
         (stdout (mk_world false (store demo) (committed demo) (stdout demo))
          ++ [line])).
Proof.
  apply (closed_connection_unbound_cursor
           (fun l => l) GetUsers
           (mk_world false (store demo) (committed demo) (stdout demo))).
  - reflexivity.
  - discriminate.
Defined.

(** ** Commits *)

Lemma app_one_neq {A} (l : list A) (x : A) : (l ++ [x])%list <> l.
Proof.
  intros H. apply (f_equal (@List.length _)) in H.
  rewrite length_app in H. simpl in H. lia.
Qed.

(** X18.  A read never changes the database, neither what the connection
    sees nor what is committed.  On an open connection a write that
    returns without reporting an error has committed: nothing is left
    pending. *)
Theorem writes_commit_reads_do_not
  (plan : list progress_row -> list progress_row) (c : call) (w : world) :
  let r := fst (run plan c w) in
  let w' := snd (run plan c w) in
  (writes c = false -> store w' = store w /\ committed w' = committed w)
  /\ (writes c = true ->
      is_open w = true ->
      (exists v, r = Return v) ->
      stdout w' = stdout w ->
      committed w' = store w').
Proof.
  cbv zeta.
  destruct (run_perform plan c w) as [-> | (-> & _)];
    [| simpl; split; [now split | intros _ _ [v Hv]; discriminate]].
  destruct w as [o [t us useq es eseq gs gseq ps] cm out].
  destruct c; destruct o, t; crush_call;
    repeat (break_match; simpl; try discriminate);
    (split; [intros Hw; try discriminate Hw; now split |]);
    intros Hw Ho [v Hv] Hout;
    try discriminate; try reflexivity;
    exfalso; exact (app_one_neq _ _ Hout).
Qed.

Lemma writes_commit_reads_do_not_witness :
  committed (snd (run (fun l => l) (RemoveGrade 1) demo))
  = store (snd (run (fun l => l) (RemoveGrade 1) demo)).
Proof.
  apply (proj2 (writes_commit_reads_do_not (fun l => l) (RemoveGrade 1) demo)).
  - reflexivity.
  - vm_compute; reflexivity.
  - eexists. vm_compute. reflexivity.
  - vm_compute; reflexivity.
Defined.

(** ** Ids that are not there *)

Lemma filter_none {A} (f : A -> bool) (l : list A) :
  existsb f l = false -> filter (fun x => negb (f x)) l = l.
Proof.
  induction l as [|x l IH]; simpl; [reflexivity |].
  destruct (f x); simpl; [discriminate |]. intros H. now rewrite IH.
Qed.

Lemma map_none {A} (f : A -> bool) (g : A -> A) (l : list A) :
  existsb f l = false -> map (fun x => if f x then g x else x) l = l.
Proof.
  induction l as [|x l IH]; simpl; [reflexivity |].
  destruct (f x); simpl; [discriminate |]. intros H. now rewrite IH.
Qed.

(** X19.  A removal or an update addressed to an id that is not in the
    table but fits the signed 64-bit range ([remove_grade],
    [update_grades], [update_user], [remove_user_progress], and
    [remove_user] and [remove_exercise] when no grade row refers to the id
    either) is not reported: the call returns, prints nothing, leaves
    every table as it was and commits. *)
Theorem missing_target_is_silent
  (plan : list progress_row -> list progress_row) (c : call) (w : world) :
  ready w ->
  binds c = true ->
  target_missing c (store w) = true ->
  run plan c w
  = (Return PyNone, mk_world (is_open w) (store w) (store w) (stdout w)).
Proof.
  intros [Ho Ht] Hb Hm. rewrite (run_bound plan c w Hb). clear Hb.
  destruct w as [o [t us useq es eseq gs gseq ps] cm out].
  simpl in Ho, Ht. subst o t.
  destruct c; simpl in Hm; try discriminate Hm;
    repeat match goal with
      | H : _ && _ = true |- _ => apply andb_true_iff in H; destruct H
      | H : negb _ = true |- _ => apply negb_true_iff in H
      end;
    unfold has_user, has_exercise in *; simpl in *;
    crush_call; unfold has_user, has_exercise; simpl.
  - rewrite (filter_none (fun g => (g_user_id g =? user_id)%Z)) by assumption.
    rewrite H. simpl.
    now rewrite (filter_none (fun u => (u_id u =? user_id)%Z)) by assumption.
  - rewrite (filter_none (fun g => (g_exercise_id g =? exercise_id)%Z))
      by assumption.
    rewrite H. simpl.
    now rewrite (filter_none (fun e => (e_id e =? exercise_id)%Z))
      by assumption.
  - now rewrite (filter_none (fun g => (g_id g =? grade_id)%Z)) by assumption.
  - now rewrite (filter_none (fun p => (p_user_id p =? user_id)%Z))
      by assumption.
  - destruct name as [n|]; simpl.
    + now rewrite (map_none (fun u => (u_id u =? user_id)%Z)
                            (fun u => mk_user (u_id u) n (u_created_at u)))
        by assumption.
    + now rewrite Hm.
  - now rewrite (map_none (fun g => (g_id g =? grade_id)%Z)
                          (fun g => mk_grade (g_id g) (g_user_id g)
                                             (g_exercise_id g) grade
                                             (g_time_attempt g)))
      by assumption.
Qed.

Lemma missing_target_is_silent_witness :
  run (fun l => l) (RemoveGrade 9) demo
  = (Return PyNone,
     mk_world (is_open demo) (store demo) (store demo) (stdout demo)).
Proof.
  apply (missing_target_is_silent (fun l => l) (RemoveGrade 9) demo).
  - split; vm_compute; reflexivity.
  - reflexivity.
  - vm_compute; reflexivity.
Defined.

(** ** [update_user_progression] called directly *)

Lemma update_user_progression_dangling
  (w : world) (user_id exercise_id : Z) (new_grade : Q) (date : string) :
  ready w ->
  existsb (is_progress_of user_id exercise_id) (user_progress (store w))
  = false ->
  has_user (store w) user_id = false
  \/ has_exercise (store w) exercise_id = false ->
  update_user_progression user_id exercise_id new_grade date w
  = (Return tt,
     mk_world (is_open w) (store w) (committed w)
              (stdout w
               ++ ["Error updating user progress: FOREIGN KEY constraint failed"])).
Proof.
  intros [Ho Ht] Hnone Href.
  assert (Hfk : has_user (store w) user_id
                && has_exercise (store w) exercise_id = false).
  { destruct Href as [-> | ->]; [reflexivity | apply andb_false_r]. }
  assert (Hfind : find (is_progress_of user_id exercise_id)
                       (user_progress (store w)) = None).
  { rewrite find_existsb in Hnone.
    now destruct (find (is_progress_of user_id exercise_id)
                       (user_progress (store w))). }
  destruct w as [o d c out]; simpl in *; subst o.
  unfold update_user_progression. unfold_monad; simpl.
  unfold select_progress. rewrite (resolve_user_progress _ Ht), Hfind.
  rewrite calculate_progress_none. simpl.
  unfold insert_progress. rewrite (resolve_user_progress _ Ht), Hnone, Hfk.
  reflexivity.
Qed.

(** X20.  [update_user_progression] for a pair without progress row whose
    user or exercise does not exist, both ids within the signed 64-bit
    range, inserts nothing: the INSERT fails on the foreign key, the
    failure is printed, the call returns, and the database is as
    before. *)
Theorem update_user_progression_unknown_reference
  (plan : list progress_row -> list progress_row)
  (w : world) (user_id exercise_id : Z) (new_grade : Q) (date : string) :
  ready w ->
  int64 user_id = true ->
  int64 exercise_id = true ->
  existsb (is_progress_of user_id exercise_id) (user_progress (store w))
  = false ->
  has_user (store w) user_id = false
  \/ has_exercise (store w) exercise_id = false ->
  run plan (UpdateUserProgression user_id exercise_id new_grade date) w
  = (Return PyNone,
     mk_world (is_open w) (store w) (committed w)
              (stdout w
               ++ ["Error updating user progress: FOREIGN KEY constraint failed"])).
Proof.
  intros Hr Hu He Hnone Href.
  apply run_none
    with (m := update_user_progression user_id exercise_id new_grade date).
  - now apply (binds_two _ user_id exercise_id).
  - reflexivity.
  - now apply update_user_progression_dangling.
Qed.

Lemma update_user_progression_unknown_reference_witness :
  run (fun l => l) (UpdateUserProgression 1 2 70 "2024-01-02 09:00:00") demo
  = (Return PyNone,
     mk_world (is_open demo) (store demo) (committed demo)
              (stdout demo
               ++ ["Error updating user progress: FOREIGN KEY constraint failed"])).
Proof.
  apply (update_user_progression_unknown_reference
           (fun l => l) demo 1 2 70 "2024-01-02 09:00:00").
  - split; vm_compute; reflexivity.
  - reflexivity.
  - reflexivity.
  - vm_compute; reflexivity.
  - right. vm_compute; reflexivity.
Defined.

(** ** The join on reachable states *)

Lemma filter_unique_id {A} (k : A -> Z) (x : Z) (l : list A) :
  NoDup (map k l) -> In x (map k l) ->
  exists r, filter (fun e => x =? k e)%Z l = [r] /\ k r = x.
Proof.
  induction l as [|e l IH]; simpl; intros Hnd Hin; [destruct Hin |].
  inversion Hnd as [|? ? Hne Hnd']; subst.
  destruct (x =? k e)%Z eqn:E.
  - apply Z.eqb_eq in E. subst x. exists e. split; [| reflexivity].
    f_equal. apply existsb_filter_nil.
    destruct (existsb (fun e0 => (k e =? k e0)%Z) l) eqn:Ex; [| reflexivity].
    apply existsb_exists in Ex. destruct Ex as (e0 & Hin0 & He0).
    apply Z.eqb_eq in He0. exfalso. apply Hne. rewrite He0.
    now apply in_map.
  - apply Z.eqb_neq in E. destruct Hin as [Heq | Hin]; [congruence |].
    now apply IH.
Qed.

Lemma join_one_per_grade (d : db) :
  consistent d ->
  map fst (join_grades_exercises d) = grades d.
Proof.
  intros [(_ & [He _] & _) Hr]. apply references_ok_iff in Hr.
  destruct Hr as [Hg _].
  assert (Hnd : NoDup (map e_id (exercises d))).
  { clear Hg. induction He as [|x l Hs IH Hall]; constructor; [| exact IH].
    intros Hin. rewrite Forall_forall in Hall. specialize (Hall x Hin). lia. }
  unfold join_grades_exercises.
  induction (grades d) as [|g gs IH]; simpl; [reflexivity |].
  rewrite map_app, IH by (intros x Hx; apply Hg; now right).
  destruct (filter_unique_id e_id (g_exercise_id g) (exercises d) Hnd)
    as (r & -> & _); [apply Hg; now left | reflexivity].
Qed.

Lemma map_fst_filter {A B} (f : A -> bool) (l : list (A * B)) :
  map fst (filter (fun x => f (fst x)) l) = filter f (map fst l).
Proof.
  induction l as [|x l IH]; simpl; [reflexivity |].
  destruct (f (fst x)); simpl; now rewrite IH.
Qed.

Lemma get_grades_of_user_counts
  (plan : list progress_row -> list progress_row) (w : world) (user_id : Z) :
  reachable plan w ->
  ready w ->
  exists rows,
    get_grades_of_user user_id w = (Return (map grade_tuple rows), w)
    /\ Permutation (map fst rows)
                   (filter (fun g => g_user_id g =? user_id)%Z
                           (grades (store w)))
    /\ List.length rows
       = List.length (filter (fun g => g_user_id g =? user_id)%Z
                             (grades (store w))).
Proof.
  intros Hw Hr.
  destruct (reachable_consistent plan w Hw) as [Hc _].
  exists (order_by_desc (fun ge => g_time_attempt (fst ge))
                        (grades_with_exercise user_id (store w))).
  split; [apply (get_grades_of_user_ready w user_id Hr) |].
  assert (Hp : Permutation
                 (map fst (order_by_desc (fun ge => g_time_attempt (fst ge))
                             (grades_with_exercise user_id (store w))))
                 (filter (fun g => g_user_id g =? user_id)%Z
                         (grades (store w)))).
  { rewrite <- (join_one_per_grade (store w) Hc).
    rewrite <- (map_fst_filter (fun g => (g_user_id g =? user_id)%Z)).
    apply Permutation_map, order_by_desc_permutation. }
  split; [exact Hp |].
  apply Permutation_length in Hp. now rewrite length_map in Hp.
Qed.

(** X21.  In every state programs can reach, [get_grades_of_user], for a
    user id within the signed 64-bit range, returns one tuple for each
    grade row of the user, no more and no fewer: the join finds exactly
    one exercise for every grade. *)
Theorem get_grades_of_user_one_per_grade
  (plan : list progress_row -> list progress_row) (w : world) (user_id : Z) :
  reachable plan w ->
  ready w ->
  int64 user_id = true ->
  exists rows,
    run plan (GetGradesOfUser user_id) w
    = (Return (GradeRows (map grade_tuple rows)), w)
    /\ Permutation (map fst rows)
                   (filter (fun g => g_user_id g =? user_id)%Z
                           (grades (store w)))
    /\ List.length rows
       = List.length (filter (fun g => g_user_id g =? user_id)%Z
                             (grades (store w))).
Proof.
  intros Hw Hr Hu.
  destruct (get_grades_of_user_counts plan w user_id Hw Hr)
    as (rows & Hrun & Hrest).
  exists rows. split; [| exact Hrest].
  apply run_fmap with (m := get_grades_of_user user_id);
    [now apply (binds_one _ user_id) | reflexivity | exact Hrun].
Qed.

Lemma get_grades_of_user_one_per_grade_witness :
  exists rows,
    run (fun l => l) (GetGradesOfUser 1) demo
    = (Return (GradeRows (map grade_tuple rows)), demo)
    /\ Permutation (map fst rows)
                   (filter (fun g => g_user_id g =? 1)%Z (grades (store demo)))
    /\ List.length rows
       = List.length (filter (fun g => g_user_id g =? 1)%Z
                             (grades (store demo))).
Proof.
  apply (get_grades_of_user_one_per_grade (fun l => l) demo 1).
  - unfold demo. apply run_all_reachable_cs, reachable_connect.
  - split; vm_compute; reflexivity.
  - reflexivity.
Defined.

(** ** [get_users] and [get_exercises] on reachable states *)

(** X22.  In every state programs can reach, [get_users] and
    [get_exercises] return the rows of their table in increasing order of
    id, each id once. *)
Theorem get_users_in_id_order
  (plan : list progress_row -> list progress_row) (w : world) :
  reachable plan w ->
  ready w ->
  (exists rows, get_users w = (Return rows, w)
                /\ rows = users (store w)
                /\ StronglySorted Z.lt (map u_id rows))
  /\ (exists rows, get_exercises w = (Return rows, w)
                   /\ rows = exercises (store w)
                   /\ StronglySorted Z.lt (map e_id rows)).
Proof.
  intros Hw Hr.
  destruct (reachable_consistent plan w Hw) as [[(Hu & He & _) _] _].
  split; eexists; (split; [| split; [reflexivity |]]).
  - now apply get_users_ready.
  - apply Hu.
  - now apply get_exercises_ready.
  - apply He.
Qed.

Lemma get_users_in_id_order_witness :
  (exists rows, get_users two_exercises = (Return rows, two_exercises)
                /\ rows = users (store two_exercises)
                /\ StronglySorted Z.lt (map u_id rows))
  /\ (exists rows, get_exercises two_exercises = (Return rows, two_exercises)
                   /\ rows = exercises (store two_exercises)
                   /\ StronglySorted Z.lt (map e_id rows)).
Proof.
  apply (get_users_in_id_order (fun l => l) two_exercises).
  - unfold two_exercises, enrolled.
    apply run_all_reachable_cs, run_all_reachable_cs, reachable_connect.
  - split; vm_compute; reflexivity.
Defined.

(** ** [update_exercise] *)

(** X23.  [update_exercise], on an open connection: when the name and the
    description are both absent or empty it prints nothing and commits
    what was pending; as soon as one of them is a non-empty string it
    prints that the table [exercise] does not exist, once, and commits
    nothing.  It returns in both cases and never changes a row. *)
Theorem update_exercise_behaviour
  (w : world) (exercise_id : Z) (name description : option string) :
  is_open w = true ->
  update_exercise exercise_id name description w
  = (Return tt,
     if truthy name || truthy description
     then mk_world true (store w) (committed w)
                   (stdout w
                    ++ ["Error updating exercise: no such table: exercise"])
     else mk_world true (store w) (store w) (stdout w)).
Proof.
  intros Ho. destruct w as [o d c out]; simpl in *; subst o.
  unfold update_exercise. unfold_monad; simpl.
  unfold update_name, update_description.
  destruct (truthy name), (truthy description);
    rewrite ?resolve_exercise; reflexivity.
Qed.

Lemma update_exercise_behaviour_witness :
  update_exercise 1 (Some "") None demo
  = (Return tt,
     if truthy (Some "") || truthy None
     then mk_world true (store demo) (committed demo)
                   (stdout demo
                    ++ ["Error updating exercise: no such table: exercise"])
     else mk_world true (store demo) (store demo) (stdout demo)).
Proof.
  apply (update_exercise_behaviour demo 1 (Some "") None).
  vm_compute; reflexivity.
Defined.

(** ** Pending changes *)

(** X24.  When nothing is pending before a call, nothing is pending after
    it, whatever the call returns or raises, except after a [remove_user]
    or [remove_exercise] that printed an error. *)
Theorem nothing_left_pending
  (plan : list progress_row -> list progress_row) (c : call) (w : world) :
  committed w = store w ->
  let w' := snd (run plan c w) in
  match c with
  | RemoveUser _ | RemoveExercise _ => stdout w' = stdout w
  | _ => True
  end ->
  committed w' = store w'.
Proof.
  cbv zeta.
  destruct (run_perform plan c w) as [-> | (-> & _)];
    [| simpl; intros -> _; reflexivity].
  destruct w as [o [t us useq es eseq gs gseq ps] cm out].
  simpl. intros ->.
  destruct c; destruct o, t; crush_call;
    repeat (break_match; simpl; try discriminate);
    intros Hout; try reflexivity;
    exfalso; exact (app_one_neq _ _ Hout).
Qed.

Lemma nothing_left_pending_witness :
  committed (snd (run (fun l => l) (RemoveUser 1) enrolled))
  = store (snd (run (fun l => l) (RemoveUser 1) enrolled)).
Proof.
  apply (nothing_left_pending (fun l => l) (RemoveUser 1) enrolled).
  - vm_compute; reflexivity.
  - vm_compute; reflexivity.
Defined.
